(** * Hyperparameter sweep of the wine-quality notebook

    A shallow embedding of [MLFLOW/wine-ml.ipynb]: the trainer [model_train],
    the [objective], the search [space] and the cell that runs the sweep
    ([fmin] inside a top-level MLflow run, then [best_run]).

    The notebook is glue around three libraries.  Their calls are modelled by
    what they do to the state the notebook can observe:
    - MLflow's fluent API: a store of runs and the stack of active runs
      ([start_run], [end_run], the [with] statement, [log_params], ...);
    - hyperopt's [fmin]: the serial loop that proposes a configuration,
      calls the objective and records its result, and [Trials.argmin];
    - Keras and NumPy: functions supplied by a [Libraries] record, each
      either returning a value or raising.

    Losses are binary64 floats (they are compared by [sorted], and a
    diverged training yields NaN).  The laws of the search space are stated
    over the real numbers. *)

From Stdlib Require Import List String ZArith Lia Floats Bool Reals Lra.
From Stdlib Require Import Permutation Zify ZifyNat.
Import ListNotations.
Open Scope string_scope.
Open Scope list_scope.

Set Implicit Arguments.
Set Warnings "-inexact-float".

(** ** Python results: a value, or a raised exception *)

Inductive exn : Type :=
| KeyError (key : string)
| IndexError
| AllTrialsFailed
| NoEvaluationTasks
| MlflowException
| KeyboardInterrupt
| KerasError (code : nat).

Inductive outcome (A : Type) : Type :=
| Returns (a : A)
| Raises (e : exn).

Arguments Returns {A} a.
Arguments Raises {A} e.

Definition returned {A : Type} (o : outcome A) : bool :=
  match o with Returns _ => true | Raises _ => false end.

(** ** Order of binary64 floats

    [PrimFloat.ltb] and [PrimFloat.leb] are Python's [<] and [<=] on floats.
    Away from NaN they are the lexicographic order of a triple of integers. *)

Module FloatOrder.

Definition key (x : spec_float) : Z * Z * Z :=
  match x with
  | S754_zero _ => (0, 0, 0)
  | S754_nan => (0, 0, 0)
  | S754_infinity s => (if s then -2 else 2, 0, 0)
  | S754_finite s m e => if s then (-1, - e, - Z.pos m) else (1, e, Z.pos m)
  end%Z.

Definition key_lt (a b : Z * Z * Z) : Prop :=
  let '(a1, a2, a3) := a in
  let '(b1, b2, b3) := b in
  (a1 < b1 \/ (a1 = b1 /\ (a2 < b2 \/ (a2 = b2 /\ a3 < b3))))%Z.

Definition key_le (a b : Z * Z * Z) : Prop :=
  let '(a1, a2, a3) := a in
  let '(b1, b2, b3) := b in
  (a1 < b1 \/ (a1 = b1 /\ (a2 < b2 \/ (a2 = b2 /\ a3 <= b3))))%Z.

Definition SFnan (x : spec_float) : bool :=
  match x with S754_nan => true | _ => false end.

Definition fkey (x : float) : Z * Z * Z := key (Prim2SF x).

End FloatOrder.

(** ** Search space (hyperopt's [hp] distributions) *)

Inductive domain : Type :=
| hp_loguniform (low high : R)
| hp_uniform (low high : R)
| hp_choice (options : list R).

(** [np.log] is the natural logarithm. *)
Definition np_log (x : R) : R := ln x.

(** space = {"lr": hp.loguniform("lr", np.log(1e-5), np.log(1e-1)),
             "momentum": hp.uniform("momentum", 0.0, 1.0)} *)
Definition space : list (string * domain) :=
  [ ("lr"%string, hp_loguniform (np_log 1e-5) (np_log 1e-1));
    ("momentum"%string, hp_uniform 0 1) ]%R.

(** A configuration: the dict of hyperparameters handed to the objective. *)
Definition Params : Type := list (string * float).

(** [d[k]] on a dict *)
Fixpoint getitem (d : Params) (k : string) : outcome float :=
  match d with
  | [] => Raises (KeyError k)
  | (k', v) :: d' => if String.eqb k' k then Returns v else getitem d' k
  end.

(** [l[i]] on a list *)
Definition getitem_list {A : Type} (l : list A) (i : nat) : outcome A :=
  match nth_error l i with
  | Some x => Returns x
  | None => Raises IndexError
  end.

(** [sorted(l, key = key)]: Python's sort is stable and compares keys with
    [<] only.  It is modelled as the stable insertion sort: an element moves
    in front of an earlier one only when its key is strictly smaller. *)
Section Sorted.
Variable A : Type.
Variable key : A -> float.

Fixpoint insert (x : A) (l : list A) : list A :=
  match l with
  | [] => [x]
  | y :: l' => if (key y <? key x)%float then y :: insert x l' else x :: l
  end.

Fixpoint sorted (l : list A) : list A :=
  match l with
  | [] => []
  | x :: l' => insert x (sorted l')
  end.

(** [np.nanargmin] over a non-empty list: the first position of the least
    key. *)
Definition nanargmin (c : A) (cs : list A) : A :=
  fold_left (fun best t => if (key t <? key best)%float then t else best) cs c.
End Sorted.

(** hyperopt's trial statuses ([STATUS_STRINGS]) *)
Inductive Status : Type :=
| STATUS_NEW | STATUS_RUNNING | STATUS_SUSPENDED | STATUS_OK | STATUS_FAIL.

Definition is_STATUS_OK (s : Status) : bool :=
  match s with STATUS_OK => true | _ => false end.

(** MLflow's run statuses *)
Inductive RunStatus : Type :=
| RUNNING | SCHEDULED | FINISHED | FAILED | KILLED.

Definition sealed (s : RunStatus) : bool :=
  match s with FINISHED | FAILED | KILLED => true | _ => false end.

Section Notebook.

(** NumPy arrays, Keras models, the model signature and hyperopt's random
    state are opaque to the notebook. *)
Variables Matrix Vector Model Signature RState : Type.

(** *** The run store of MLflow *)

Record Run : Type := mkRun {
  parent_run_id : option nat;
  run_status : RunStatus;
  start_time : nat;
  end_time : option nat;
  run_params : Params;
  run_metrics : list (string * float);
  run_artifacts : list (string * (Model * Signature))
}.

Inductive Printed : Type :=
| BestParameters (best : Params)
| BestEvalRmse (loss : float).

(** What the notebook acts on: the tracking store (a run's id is its
    position in [runs]), the stack of active runs (innermost first), a
    logical clock that stamps the start and the end of runs, the model
    registry and the printed lines. *)
Record World : Type := mkWorld {
  experiment : option string;
  runs : list Run;
  active_run_stack : list nat;
  clock : nat;
  registry : list (string * Model);
  stdout : list Printed
}.

Definition set_runs (f : list Run -> list Run) (w : World) : World :=
  mkWorld (experiment w) (f (runs w)) (active_run_stack w) (clock w)
          (registry w) (stdout w).

Fixpoint alter_run (f : Run -> Run) (run_id : nat) (l : list Run) : list Run :=
  match l, run_id with
  | [], _ => []
  | r :: l', O => f r :: l'
  | r :: l', S i => r :: alter_run f i l'
  end.

(** *** State and exceptions *)

Definition M (A : Type) : Type := World -> outcome A * World.

Definition ret {A : Type} (a : A) : M A := fun w => (Returns a, w).

Definition bind {A B : Type} (m : M A) (k : A -> M B) : M B :=
  fun w =>
    match m w with
    | (Returns a, w') => k a w'
    | (Raises e, w') => (Raises e, w')
    end.

Definition lift {A : Type} (o : outcome A) : M A := fun w => (o, w).

Definition modify (f : World -> World) : M unit := fun w => (Returns tt, f w).

Notation "x <- m ;; k" := (bind m (fun x => k))
  (at level 61, m at next level, right associativity).
Notation "m ;; k" := (bind m (fun _ => k))
  (at level 61, right associativity).

(** *** MLflow's fluent API *)

Definition set_experiment (name : string) : M unit :=
  modify (fun w => mkWorld (Some name) (runs w) (active_run_stack w) (clock w)
                           (registry w) (stdout w)).

(** The run a call of [start_run] creates: its parent is the innermost
    active run, if there is one. *)
Definition create_run (w : World) : outcome nat * World :=
  let run_id := List.length (runs w) in
  let run := mkRun (hd_error (active_run_stack w)) RUNNING (clock w) None [] [] [] in
  (Returns run_id,
   mkWorld (experiment w) (runs w ++ [run]) (run_id :: active_run_stack w)
           (S (clock w)) (registry w) (stdout w)).

(** [mlflow.start_run(nested = nested)]: refused when a run is active and
    [nested] is not set. *)
Definition start_run (nested : bool) : M nat :=
  fun w =>
    match active_run_stack w with
    | [] => create_run w
    | _ :: _ => if nested then create_run w else (Raises MlflowException, w)
    end.

Definition set_terminated (status : RunStatus) (now : nat) (r : Run) : Run :=
  mkRun (parent_run_id r) status (start_time r) (Some now) (run_params r)
        (run_metrics r) (run_artifacts r).

(** [mlflow.end_run(status)]: pops the innermost active run and seals it. *)
Definition end_run (status : RunStatus) : M unit :=
  fun w =>
    match active_run_stack w with
    | [] => (Returns tt, w)
    | run_id :: stack =>
        (Returns tt,
         mkWorld (experiment w)
                 (alter_run (set_terminated status (clock w)) run_id (runs w))
                 stack (S (clock w)) (registry w) (stdout w))
    end.

(** [with mlflow.start_run(nested = nested): body].  [ActiveRun.__exit__]
    ends the run with FINISHED when the body completes and with FAILED when
    it raises, and lets the exception through. *)
Definition with_start_run {A : Type} (nested : bool) (body : M A) : M A :=
  fun w =>
    match start_run nested w with
    | (Raises e, w1) => (Raises e, w1)
    | (Returns _, w1) =>
        match body w1 with
        | (Returns a, w2) => (Returns a, snd (end_run FINISHED w2))
        | (Raises e, w2) => (Raises e, snd (end_run FAILED w2))
        end
    end.

(** The logging calls write to the innermost active run (and start one when
    none is active). *)
Definition get_or_start_run : M nat :=
  fun w =>
    match active_run_stack w with
    | run_id :: _ => (Returns run_id, w)
    | [] => start_run false w
    end.

Definition add_params (params : Params) (r : Run) : Run :=
  mkRun (parent_run_id r) (run_status r) (start_time r) (end_time r)
        (run_params r ++ params) (run_metrics r) (run_artifacts r).

Definition add_metric (name : string) (value : float) (r : Run) : Run :=
  mkRun (parent_run_id r) (run_status r) (start_time r) (end_time r)
        (run_params r) (run_metrics r ++ [(name, value)]) (run_artifacts r).

Definition add_artifact (path : string) (a : Model * Signature) (r : Run) : Run :=
  mkRun (parent_run_id r) (run_status r) (start_time r) (end_time r)
        (run_params r) (run_metrics r) (run_artifacts r ++ [(path, a)]).

Definition log_params (params : Params) : M unit :=
  run_id <- get_or_start_run ;;
  modify (set_runs (alter_run (add_params params) run_id)).

Definition log_metric (name : string) (value : float) : M unit :=
  run_id <- get_or_start_run ;;
  modify (set_runs (alter_run (add_metric name value) run_id)).

Definition register_model (name : string) (model : Model) : M unit :=
  modify (fun w => mkWorld (experiment w) (runs w) (active_run_stack w) (clock w)
                           (registry w ++ [(name, model)]) (stdout w)).

(** [mlflow.tensorflow.log_model(model, artifact_path, signature = signature,
    registered_model_name = None)]: the model becomes an artifact of the
    active run; it enters the registry only when a name is given. *)
Definition log_model (model : Model) (artifact_path : string)
    (signature : Signature) (registered_model_name : option string) : M unit :=
  run_id <- get_or_start_run ;;
  modify (set_runs (alter_run (add_artifact artifact_path (model, signature)) run_id)) ;;
  match registered_model_name with
  | Some name => register_model name model
  | None => ret tt
  end.

Definition print (line : Printed) : M unit :=
  modify (fun w => mkWorld (experiment w) (runs w) (active_run_stack w) (clock w)
                           (registry w) (stdout w ++ [line])).

(** *** Results and trials *)

(** The dict a trial returns: {"loss": ..., "status": ..., "model": ...} *)
Record Result : Type := mkResult {
  loss : float;
  status : Status;
  model : Model
}.

(** A trial document of hyperopt: the configuration tried ([misc.vals]) and
    the result of the objective. *)
Record Trial : Type := mkTrial {
  misc_vals : Params;
  result : Result
}.

(** *** NumPy, Keras and hyperopt

    Each call is a function of its arguments that returns or raises; the
    randomness of a training (initial weights, shuffling) is not modelled.
    [fit] returns the fitted model, which in the notebook is the same object
    as the one it was given. *)

Record Libraries : Type := mkLibraries {
  np_mean : Matrix -> Vector;
  np_var : Matrix -> Vector;
  shape1 : Matrix -> nat;
  (* keras.Sequential([Input, Normalization(mean, variance), Dense(64), Dense(1)]) *)
  keras_Sequential : nat -> Vector -> Vector -> outcome Model;
  (* model.compile(optimizer = SGD(learning_rate, momentum), loss, metrics) *)
  compile : Model -> float -> float -> outcome Model;
  (* model.fit(X, y, validation_data = (vX, vy), epochs, batch_size) *)
  fit : Model -> Matrix -> Vector -> Matrix -> Vector -> nat -> nat -> outcome Model;
  (* model.evaluate(X, y, batch_size): [loss, root_mean_squared_error] *)
  evaluate : Model -> Matrix -> Vector -> nat -> outcome (list float);
  (* rstate.integers(2 ** 31 - 1) *)
  rstate_integers : RState -> Z * RState;
  (* tpe.suggest(new_ids, domain, trials, seed) *)
  tpe_suggest : list (string * domain) -> Z -> list Trial -> Params
}.

(** The notebook's globals: the split data set and the inferred signature. *)
Record Globals : Type := mkGlobals {
  train_X : Matrix;
  train_y : Vector;
  validation_X : Matrix;
  validation_y : Vector;
  test_X : Matrix;
  test_y : Vector;
  signature : Signature
}.

Variable L : Libraries.
Variable G : Globals.

(** *** The trainer *)

Definition model_train (params : Params) (epochs : nat)
    (train_X : Matrix) (train_y : Vector)
    (validation_X : Matrix) (validation_y : Vector)
    (test_X : Matrix) (test_y : Vector) : M Result :=
  let mean := np_mean L train_X in
  let var := np_var L train_X in
  model <- lift (keras_Sequential L (shape1 L train_X) mean var) ;;
  (* Compile model *)
  lr <- lift (getitem params "lr") ;;
  momentum <- lift (getitem params "momentum") ;;
  model <- lift (compile L model lr momentum) ;;
  (* Train the model MLflow tracking *)
  with_start_run true (
    model <- lift (fit L model train_X train_y validation_X validation_y epochs 64) ;;
    (* Evaluate the model *)
    eval_result <- lift (evaluate L model validation_X validation_y 64) ;;
    eval_rmse <- lift (getitem_list eval_result 1) ;;
    (* Log parameters and results *)
    log_params params ;;
    log_metric "eval_rmse" eval_rmse ;;
    (* Log model. *)
    log_model model "model" (signature G) None ;;
    ret (mkResult eval_rmse STATUS_OK model)).

Definition objective (params : Params) : M Result :=
  model_train params 3 (train_X G) (train_y G) (validation_X G) (validation_y G)
              (test_X G) (test_y G).

(** *** hyperopt's [fmin] *)

(** One proposal: a seed is drawn from the random state and handed to the
    suggestion algorithm together with the history. *)
Definition propose (algo : list (string * domain) -> Z -> list Trial -> Params)
    (space : list (string * domain)) (rstate : RState) (trials : list Trial)
    : Params * RState :=
  let (seed, rstate') := rstate_integers L rstate in
  (algo space seed trials, rstate').

(** The serial loop of [FMinIter]: [n] times, propose a configuration, call
    the objective and record its result.  With the default
    [catch_eval_exceptions = False] an exception of the objective is raised
    again and its trial is dropped from the history. *)
Fixpoint FMinIter_run (fn : Params -> M Result)
    (algo : list (string * domain) -> Z -> list Trial -> Params)
    (space : list (string * domain)) (n : nat) (rstate : RState)
    (trials : list Trial) : M (list Trial) :=
  match n with
  | O => ret trials
  | S n' =>
      let (params, rstate') := propose algo space rstate trials in
      r <- fn params ;;
      FMinIter_run fn algo space n' rstate' (trials ++ [mkTrial params r])
  end.

(** [Trials.best_trial]: the trial with the lowest loss among those with
    status ok and a loss that is not NaN. *)
Definition best_trial (trials : list Trial) : outcome Trial :=
  match filter (fun t => is_STATUS_OK (status (result t))
                         && negb (is_nan (loss (result t)))) trials with
  | [] => Raises AllTrialsFailed
  | c :: cs => Returns (nanargmin (fun t => loss (result t)) c cs)
  end.

(** [Trials.argmin] *)
Definition argmin (trials : list Trial) : outcome Params :=
  match best_trial trials with
  | Returns t => Returns (misc_vals t)
  | Raises e => Raises e
  end.

(** [fmin(fn, space, algo, max_evals, trials)]: runs the loop until [trials]
    holds [max_evals] trials and returns [trials.argmin]; the updated
    [trials] object is returned with it. *)
Definition fmin (fn : Params -> M Result) (space : list (string * domain))
    (algo : list (string * domain) -> Z -> list Trial -> Params)
    (max_evals : nat) (trials : list Trial) (rstate : RState)
    : M (Params * list Trial) :=
  trials' <- FMinIter_run fn algo space (max_evals - List.length trials)
                          rstate trials ;;
  match trials' with
  | [] => lift (Raises NoEvaluationTasks)
  | _ :: _ => best <- lift (argmin trials') ;; ret (best, trials')
  end.

(** *** The search cell *)

(** What the cell binds. *)
Record Bindings : Type := mkBindings {
  trials : list Trial;
  best : Params;
  best_run : Result
}.

(** best_run = sorted(trials.results, key = lambda x: x["loss"])[0] *)
Definition fetch_best_run (results : list Result) : outcome Result :=
  getitem_list (sorted loss results) 0.

(** The cell, for a budget [max_evals] (the notebook runs it with 12) and the
    random state [fmin] starts from. *)
Definition run_search (max_evals : nat) (rstate : RState) : M Bindings :=
  set_experiment "/wine-quality" ;;
  with_start_run false (
    (* Conduct the hp search *)
    bt <- fmin objective space (tpe_suggest L) max_evals [] rstate ;;
    (* Fetch the details of the best run *)
    best_run <- lift (fetch_best_run (map result (snd bt))) ;;
    (* Log the best parameters, loss, and model. *)
    log_params (fst bt) ;;
    log_metric "eval_rmse" (loss best_run) ;;
    log_model (model best_run) "model" (signature G) None ;;
    (* Print the best parameters and coresponding loss. *)
    print (BestParameters (fst bt)) ;;
    print (BestEvalRmse (loss best_run)) ;;
    ret (mkBindings (snd bt) (fst bt) best_run)).

Definition cell (rstate : RState) : M Bindings := run_search 12 rstate.

(** *** Reading the run store *)

(** The record of a child run that started at the clock of [w] under the
    innermost active run of [w], and ended one tick later. *)
Definition child_run (w : World) (st : RunStatus) (ps : Params)
    (ms : list (string * float))
    (arts : list (string * (Model * Signature))) : Run :=
  mkRun (hd_error (active_run_stack w)) st (clock w) (Some (S (clock w)))
        ps ms arts.

(** The world after a child run was begun and ended: one more record, two
    ticks later, the same active runs. *)
Definition after_child (w : World) (r : Run) : World :=
  mkWorld (experiment w) (runs w ++ [r]) (active_run_stack w)
          (S (S (clock w))) (registry w) (stdout w).

Definition grow (w : World) (children : list Run) : World :=
  mkWorld (experiment w) (runs w ++ children) (active_run_stack w)
          (2 * List.length children + clock w) (registry w) (stdout w).

(** [children] are sealed runs under [top], begun and ended one after the
    other from time [c0] on. *)
Definition children_ok (top : option nat) (c0 : nat) (children : list Run)
    : Prop :=
  forall i r, nth_error children i = Some r ->
    parent_run_id r = top /\ start_time r = (2 * i + c0)%nat /\
    end_time r = Some (S (2 * i + c0)) /\ sealed (run_status r) = true.

(** The run [r] is the record of the trial [t]. *)
Definition recorded (t : Trial) (r : Run) : Prop :=
  run_status r = FINISHED /\
  run_params r = misc_vals t /\
  run_metrics r = [("eval_rmse", loss (result t))] /\
  run_artifacts r = [("model", (model (result t), signature G))] /\
  status (result t) = STATUS_OK.

(** [res] is what the trainer computes for [params]: the model is built and
    compiled from the training features and the two hyperparameters, fitted
    on the training and validation data, and its loss is the second number
    of the evaluation on the validation data. *)
Definition trained_on (params : Params) (epochs : nat)
    (train_X : Matrix) (train_y : Vector)
    (validation_X : Matrix) (validation_y : Vector) (res : Result) : Prop :=
  exists m0 lr momentum m1 eval_result,
    keras_Sequential L (shape1 L train_X) (np_mean L train_X)
                     (np_var L train_X) = Returns m0 /\
    getitem params "lr" = Returns lr /\
    getitem params "momentum" = Returns momentum /\
    compile L m0 lr momentum = Returns m1 /\
    fit L m1 train_X train_y validation_X validation_y epochs 64
      = Returns (model res) /\
    evaluate L (model res) validation_X validation_y 64
      = Returns eval_result /\
    nth_error eval_result 1 = Some (loss res) /\
    status res = STATUS_OK.

End Notebook.

(** ** Drawing from the search space

    The random generator is NumPy's: [random] yields a number of [0, 1) and
    [randint n] an integer of [0, n). *)

Section Sampling.
Variable Gen : Type.
Variable random : Gen -> R * Gen.
Variable randint : nat -> Gen -> nat * Gen.



End Sampling.




(** ** The best selection

    [earliest_minimum key l i x]: [x] is the element of [l] at position [i],
    no element of [l] has a smaller key, and every element before position
    [i] has a strictly greater key. *)
Definition earliest_minimum {A : Type} (key : A -> float) (l : list A)
    (i : nat) (x : A) : Prop :=
  nth_error l i = Some x /\
  (forall r, In r l -> (key x <=? key r)%float = true) /\
  (forall j r, (j < i)%nat -> nth_error l j = Some r ->
               (key x <? key r)%float = true).

(** ** The search loop, step by step *)

Section SearchTrace.
Variables Matrix Vector Model Signature RState : Type.
Variable L : Libraries Matrix Vector Model RState.

(** The random state after [k] proposals: each proposal draws one seed. *)
Fixpoint rstate_after (k : nat) (rstate : RState) : RState :=
  match k with
  | O => rstate
  | S k' => rstate_after k' (snd (rstate_integers L rstate))
  end.

(** The world in which [fmin] starts when the cell is run in [w0] with no
    active run: the experiment is set and the top-level run is begun. *)
Definition search_started (w0 : World Model Signature) : World Model Signature :=
  mkWorld (Some "/wine-quality")
          (runs w0 ++ [mkRun None RUNNING (clock w0) None [] [] []])
          [List.length (runs w0)] (S (clock w0)) (registry w0) (stdout w0).

End SearchTrace.

(** ** A stub trainer

    Models are the two hyperparameters they were compiled with; the
    evaluation of a model is [abs(lr - 0.05) + abs(momentum - 0.5)].  The
    proposals come from a fixed table, indexed by the seed, and the random
    state is a counter. *)

Module Stub.

Definition Model : Type := (float * float)%type.

Definition config (lr momentum : float) : Params :=
  [("lr", lr); ("momentum", momentum)].

Definition table : list Params :=
  [ config 1e-5 0.0; config 0.01 0.3; config 0.05 0.5; config 0.1 0.9;
    config 0.05 0.5; config 0.02 0.5; config 0.05 0.25; config 1e-3 0.75;
    config 0.07 0.6; config 1e-4 0.1; config 0.03 0.45; config 0.09 1.0 ]%float.

Definition suggest (sp : list (string * domain)) (seed : Z)
    (history : list (Trial Model)) : Params :=
  nth (Z.to_nat seed) table [].

Definition rmse (m : Model) : float :=
  (abs (fst m - 0.05) + abs (snd m - 0.5))%float.

Definition libraries : Libraries unit unit Model nat :=
  mkLibraries (fun _ => tt) (fun _ => tt) (fun _ => 11%nat)
    (fun _ _ _ => Returns (0, 0)%float)
    (fun _ lr momentum => Returns (lr, momentum))
    (fun m _ _ _ _ _ _ => Returns m)
    (fun m _ _ _ => Returns [(rmse m * rmse m)%float; rmse m])
    (fun n => (Z.of_nat n, S n))
    suggest.

(** The same, with a training that always raises. *)
Definition raising : Libraries unit unit Model nat :=
  mkLibraries (fun _ => tt) (fun _ => tt) (fun _ => 11%nat)
    (fun _ _ _ => Returns (0, 0)%float)
    (fun _ lr momentum => Returns (lr, momentum))
    (fun m _ _ _ _ _ _ => Raises (KerasError 1))
    (fun m _ _ _ => Returns [(rmse m * rmse m)%float; rmse m])
    (fun n => (Z.of_nat n, S n))
    suggest.

(** The same, with a training that always diverges: the evaluation is NaN. *)
Definition diverging : Libraries unit unit Model nat :=
  mkLibraries (fun _ => tt) (fun _ => tt) (fun _ => 11%nat)
    (fun _ _ _ => Returns (0, 0)%float)
    (fun _ lr momentum => Returns (lr, momentum))
    (fun m _ _ _ _ _ _ => Returns m)
    (fun m _ _ _ => Returns [nan; nan])
    (fun n => (Z.of_nat n, S n))
    suggest.

Definition globals : Globals unit unit unit :=
  mkGlobals tt tt tt tt tt tt tt.

(** An empty tracking store with no active run. *)
Definition fresh : World Model unit := mkWorld None [] [] 0 [] [].

(** Two results: a diverged trial followed by a trial of loss 1. *)
Definition diverged_then_one : list (Result Model) :=
  [ mkResult nan STATUS_OK (0.1, 0.9); mkResult 1 STATUS_OK (0.01, 0.3) ]%float.

(** Three results with a tie for the least loss. *)
Definition tied : list (Result Model) :=
  [ mkResult 0.9 STATUS_OK (1e-5, 0); mkResult 0.7 STATUS_OK (0.01, 0.3);
    mkResult 0.7 STATUS_OK (0.02, 0.5) ]%float.

(** What the cell binds when it runs with the stub trainer for 12 trials. *)
Definition bindings12 : Bindings Model :=
  match fst (run_search libraries globals 12 0%nat fresh) with
  | Returns b => b
  | Raises _ => mkBindings [] [] (mkResult 0%float STATUS_FAIL (0, 0)%float)
  end.


End Stub.

(** ** scikit-learn

    [train_test_split] as the notebook calls it: a float [test_size], no
    [train_size], an integer [random_state], shuffling, no stratification.
    It validates the sizes ([_validate_shuffle_split]), takes one permutation
    of the row numbers from the generator seeded with [random_state]
    ([ShuffleSplit]) and indexes every array it is given with the same train
    and test indices ([_safe_indexing]).

    A [test_size] is the fraction it denotes.  The size of the test set is
    [ceil(test_size * n_samples)], computed in binary64: 0.25 is a power of
    two, its product is exact; the float 0.2 exceeds 1/5 by a relative
    2^-54, less than half a unit in the last place of any product, so
    the product rounds to n / 5 when 5 divides n and stays strictly between
    the same two integers otherwise (for n below 2^50). *)

Module Sklearn.

Inductive error : Type := ValueError | IndexError.

Inductive result (A : Type) : Type :=
| Ok (a : A)
| Error (e : error).

Arguments Ok {A} a.
Arguments Error {A} e.

(** A float [test_size] such as 0.25 or 0.2, as the fraction it denotes. *)
Definition fraction : Type := (nat * nat)%type.

(** [ceil(test_size * n_samples)] *)
Definition n_test_of (test_size : fraction) (n_samples : nat) : nat :=
  let (p, q) := test_size in (n_samples * p + (q - 1)) / q.

(** [_validate_shuffle_split]: a float [test_size] must lie strictly between
    0 and 1, and the train set, the complement of the test set, must not be
    empty. *)
Definition validate_shuffle_split (n_samples : nat) (test_size : fraction)
    : result (nat * nat) :=
  let (p, q) := test_size in
  if ((p =? 0) || (q <=? p))%nat then Error ValueError
  else
    let n_test := n_test_of test_size n_samples in
    let n_train := n_samples - n_test in
    if (n_train =? 0)%nat then Error ValueError else Ok (n_train, n_test).

Section Split.
(** [np.random.RandomState(random_state).permutation(n_samples)] *)
Variable permutation : nat -> nat -> list nat.

(** [ShuffleSplit]: the test indices are the first [n_test] of the
    permutation, the train indices the [n_train] that follow. *)
Definition shuffle_split (n_samples : nat) (test_size : fraction)
    (random_state : nat) : result (list nat * list nat) :=
  match validate_shuffle_split n_samples test_size with
  | Error e => Error e
  | Ok (n_train, n_test) =>
      let perm := permutation random_state n_samples in
      Ok (firstn n_train (skipn n_test perm), firstn n_test perm)
  end.

(** [_safe_indexing(a, indices)]: the rows of [a] at [indices]. *)
Fixpoint safe_indexing {A : Type} (a : list A) (indices : list nat)
    : result (list A) :=
  match indices with
  | [] => Ok []
  | i :: indices' =>
      match nth_error a i with
      | None => Error IndexError
      | Some x =>
          match safe_indexing a indices' with
          | Ok l => Ok (x :: l)
          | Error e => Error e
          end
      end
  end.

(** [train_test_split(a, test_size, random_state)]: (a_train, a_test) *)
Definition train_test_split {A : Type} (a : list A) (test_size : fraction)
    (random_state : nat) : result (list A * list A) :=
  match shuffle_split (List.length a) test_size random_state with
  | Error e => Error e
  | Ok (train, test) =>
      match safe_indexing a train, safe_indexing a test with
      | Ok a_train, Ok a_test => Ok (a_train, a_test)
      | Error e, _ => Error e
      | _, Error e => Error e
      end
  end.

(** [train_test_split(a, b, test_size, random_state)]:
    (a_train, a_test, b_train, b_test); the arrays must have one length. *)
Definition train_test_split2 {A B : Type} (a : list A) (b : list B)
    (test_size : fraction) (random_state : nat)
    : result (list A * list A * list B * list B) :=
  if negb (List.length a =? List.length b)%nat then Error ValueError
  else
    match shuffle_split (List.length a) test_size random_state with
    | Error e => Error e
    | Ok (train, test) =>
        match safe_indexing a train, safe_indexing a test,
              safe_indexing b train, safe_indexing b test with
        | Ok a_train, Ok a_test, Ok b_train, Ok b_test =>
            Ok (a_train, a_test, b_train, b_test)
        | Error e, _, _, _ => Error e
        | _, Error e, _, _ => Error e
        | _, _, Error e, _ => Error e
        | _, _, _, Error e => Error e
        end
    end.
End Split.
End Sklearn.

(** The row of [a] at index [i] is [x]. *)
Definition at_index {A : Type} (a : list A) (i : nat) (x : A) : Prop :=
  nth_error a i = Some x.

(** ** The data of the notebook *)

Section SplitData.
(** A row of the data frame, its features (the row without the column
    "quality") and its target (the column "quality"). *)
Variables Row Features Target Signature : Type.
Variable drop_quality : Row -> Features.
Variable quality : Row -> Target.
Variable infer_signature : list Features -> list Target -> Signature.
Variable permutation : nat -> nat -> list nat.

(** The cells that split the data and infer the signature:
    train, test = train_test_split(data, test_size = 0.25, random_state = 42),
    the features and the target of each part, then
    train_X, validation_X, train_y, validation_y =
      train_test_split(train_X, train_y, test_size = 0.2, random_state = 42)
    and signature = infer_signature(train_X, train_y). *)
Definition split_data (data : list Row)
    : Sklearn.result (Globals (list Features) (list Target) Signature) :=
  match Sklearn.train_test_split permutation data (1, 4) 42 with
  | Sklearn.Error e => Sklearn.Error e
  | Sklearn.Ok (train, test) =>
      let train_X := map drop_quality train in
      let train_y := map quality train in
      let test_X := map drop_quality test in
      let test_y := map quality test in
      match Sklearn.train_test_split2 permutation train_X train_y (1, 5) 42 with
      | Sklearn.Error e => Sklearn.Error e
      | Sklearn.Ok (train_X, validation_X, train_y, validation_y) =>
          let signature := infer_signature train_X train_y in
          Sklearn.Ok (mkGlobals train_X train_y validation_X validation_y
                                test_X test_y signature)
      end
  end.
End SplitData.

(** ** A stub data frame

    Rows are pairs of a feature and a quality; the generator reverses the
    row numbers, whatever the seed. *)

Module SplitStub.

Definition Row : Type := (nat * nat)%type.

Definition permutation (seed n : nat) : list nat := rev (seq 0 n).

Definition split_data (data : list Row)
    : Sklearn.result (Globals (list nat) (list nat) unit) :=
  split_data (@fst nat nat) (@snd nat nat) (fun _ _ => tt) permutation data.

(** Eight rows. *)
Definition data8 : list Row :=
  [(10, 5); (11, 6); (12, 5); (13, 7); (14, 4); (15, 6); (16, 5); (17, 8)]%nat.

(** What the cells bind on the eight rows. *)
Definition globals8 : Globals (list nat) (list nat) unit :=
  mkGlobals [12; 13; 14; 15]%nat [5; 7; 4; 6]%nat [10; 11]%nat [5; 6]%nat
            [17; 16]%nat [8; 5]%nat tt.

End SplitStub.

(** A tracking store with one run, which is active. *)
Definition busy : World Stub.Model unit :=
  mkWorld None [mkRun None RUNNING 0 None [] [] []] [0%nat] 1 [] [].

(** ** Facts about the order of floats *)

Module FloatOrderFacts.
Import FloatOrder.

Ltac cmp_cases :=
  repeat match goal with
  | |- context [Z.compare ?a ?b] => destruct (Z.compare_spec a b)
  | |- context [PosDef.Pos.compare_cont Eq ?a ?b] =>
      change (PosDef.Pos.compare_cont Eq a b) with (Pos.compare a b);
      destruct (Pos.compare_spec a b)
  end.

Ltac spec_float_cases x y :=
  destruct x as [[|]|[|]| |[|] ? ?], y as [[|]|[|]| |[|] ? ?]; cbn;
  cmp_cases; cbn.

Lemma SFltb_key x y :
  SFltb x y = true <->
  SFnan x = false /\ SFnan y = false /\ key_lt (key x) (key y).
Proof.
  unfold SFltb. spec_float_cases x y;
    split; intros; repeat split; try discriminate; try reflexivity;
    try lia; intuition (try discriminate; lia).
Qed.

Lemma SFleb_key x y :
  SFleb x y = true <->
  SFnan x = false /\ SFnan y = false /\ key_le (key x) (key y).
Proof.
  unfold SFleb. spec_float_cases x y;
    split; intros; repeat split; try discriminate; try reflexivity;
    try lia; intuition (try discriminate; lia).
Qed.

Lemma SFnan_eqb x : SFnan x = negb (SFeqb x x).
Proof.
  unfold SFeqb. destruct x as [s|s| |s m e]; cbn; try reflexivity;
    destruct s; cbn; try reflexivity;
    rewrite Z.compare_refl;
    change (PosDef.Pos.compare_cont Eq m m) with (Pos.compare m m);
    rewrite Pos.compare_refl; reflexivity.
Qed.

Lemma is_nan_SF x : is_nan x = SFnan (Prim2SF x).
Proof. unfold is_nan. rewrite FloatAxioms.eqb_spec. symmetry. apply SFnan_eqb. Qed.

Lemma ltb_key a b :
  (a <? b)%float = true <->
  is_nan a = false /\ is_nan b = false /\ key_lt (fkey a) (fkey b).
Proof. rewrite FloatAxioms.ltb_spec, !is_nan_SF. apply SFltb_key. Qed.

Lemma leb_key a b :
  (a <=? b)%float = true <->
  is_nan a = false /\ is_nan b = false /\ key_le (fkey a) (fkey b).
Proof. rewrite FloatAxioms.leb_spec, !is_nan_SF. apply SFleb_key. Qed.

Ltac keys :=
  unfold key_lt, key_le in *;
  repeat match goal with
  | |- context [fkey ?a] =>
      let k1 := fresh "k" in let k2 := fresh "k" in let k3 := fresh "k" in
      destruct (fkey a) as [[k1 k2] k3]
  | H : context [fkey ?a] |- _ =>
      let k1 := fresh "k" in let k2 := fresh "k" in let k3 := fresh "k" in
      destruct (fkey a) as [[k1 k2] k3]
  end.

Lemma ltb_leb a b : (a <? b)%float = true -> (a <=? b)%float = true.
Proof.
  rewrite ltb_key, leb_key. intros (Ha & Hb & H). repeat split; trivial.
  keys. lia.
Qed.

Lemma leb_refl a : is_nan a = false -> (a <=? a)%float = true.
Proof.
  intros Ha. rewrite leb_key. repeat split; trivial. keys. lia.
Qed.

Lemma not_ltb_leb a b :
  is_nan a = false -> is_nan b = false ->
  (b <? a)%float = false -> (a <=? b)%float = true.
Proof.
  intros Ha Hb H. rewrite leb_key. repeat split; trivial.
  assert (N : ~ key_lt (fkey b) (fkey a)).
  { intros K. rewrite (proj2 (ltb_key b a)) in H; [discriminate | auto]. }
  keys. lia.
Qed.

Lemma leb_trans a b c :
  (a <=? b)%float = true -> (b <=? c)%float = true -> (a <=? c)%float = true.
Proof.
  rewrite !leb_key. intros (Ha & Hb & H1) (_ & Hc & H2). repeat split; trivial.
  keys. lia.
Qed.



Lemma leb_not_nan a b :
  (a <=? b)%float = true -> is_nan a = false /\ is_nan b = false.
Proof. rewrite leb_key. tauto. Qed.

End FloatOrderFacts.

(** ** Facts about [sorted] and [nanargmin] *)

Section SortedFacts.
Import FloatOrderFacts.
Variable A : Type.
Variable key : A -> float.

Lemma insert_head (x : A) (s : list A) :
  exists t,
    insert key x s =
    match s with
    | [] => x
    | y :: _ => if (key y <? key x)%float then y else x
    end :: t.
Proof.
  destruct s as [|y s]; cbn.
  - now exists [].
  - destruct (key y <? key x)%float; eauto.
Qed.

Lemma sorted_cons_head (x : A) (l : list A) :
  exists t,
    sorted key (x :: l) =
    match sorted key l with
    | [] => x
    | y :: _ => if (key y <? key x)%float then y else x
    end :: t.
Proof. cbn. apply insert_head. Qed.


(** The head of the sorted list is the earliest minimum, when no key is NaN. *)
Lemma sorted_head_earliest_minimum (l : list A) :
  l <> [] ->
  (forall r, In r l -> is_nan (key r) = false) ->
  exists i m t, sorted key l = m :: t /\ earliest_minimum key l i m.
Proof.
  induction l as [|x l IH]; [congruence|]. intros _ Hnan.
  destruct (sorted_cons_head x l) as [t Ht]. rewrite Ht. clear Ht.
  assert (Hx : is_nan (key x) = false) by (apply Hnan; now left).
  destruct l as [|y l].
  - exists 0%nat, x, t. cbn. split; trivial. repeat split.
    + intros r [<-|[]]. now apply leb_refl.
    + intros j r Hj. lia.
  - destruct IH as (i & m & t' & Hs & Hi & Hmin & Hbefore).
    { discriminate. } { intros r Hr. apply Hnan. now right. }
    rewrite Hs.
    assert (Hm : is_nan (key m) = false).
    { apply Hnan. right. eapply nth_error_In; eauto. }
    destruct (key m <? key x)%float eqn:E.
    + exists (S i), m, t. split; trivial. repeat split; trivial.
      * intros r [<-|Hr]; [now apply ltb_leb | now apply Hmin].
      * intros [|j] r Hj Hr; cbn in Hr.
        -- injection Hr as <-. exact E.
        -- apply (Hbefore j); [lia | exact Hr].
    + exists 0%nat, x, t. split; trivial. repeat split; trivial.
      * intros r [<-|Hr]; [now apply leb_refl|].
        apply leb_trans with (key m); [now apply not_ltb_leb | now apply Hmin].
      * intros j r Hj. lia.
Qed.



End SortedFacts.

(** ** Facts about the run store and the search loop *)

Section NotebookFacts.
Variables Matrix Vector Model Signature RState : Type.
Variable L : Libraries Matrix Vector Model RState.
Variable G : Globals Matrix Vector Signature.

Local Abbreviation World := (World Model Signature).
Local Abbreviation Run := (Run Model Signature).

Lemma alter_run_app_last (f : Run -> Run) (l : list Run) (r : Run)
    (t : list Run) :
  alter_run f (List.length l) (l ++ r :: t) = l ++ f r :: t.
Proof. induction l as [|x l IH]; cbn; [reflexivity | now rewrite IH]. Qed.

Lemma start_run_nested (w : World) : start_run true w = create_run w.
Proof. unfold start_run. now destruct (active_run_stack w). Qed.

(** The three ways [model_train] ends: it raises before its run is begun;
    it raises inside its run, which is sealed FAILED with nothing logged; it
    returns, and its run is sealed FINISHED with the parameters, the metric
    and the model. *)
Lemma model_train_cases (params : Params) (epochs : nat)
    (tX : Matrix) (ty : Vector) (vX : Matrix) (vy : Vector)
    (teX : Matrix) (tey : Vector) (w : World) :
  (exists e,
      model_train L G params epochs tX ty vX vy teX tey w = (Raises e, w)) \/
  (exists e,
      model_train L G params epochs tX ty vX vy teX tey w =
      (Raises e, after_child w (child_run w FAILED [] [] []))) \/
  (exists res,
      model_train L G params epochs tX ty vX vy teX tey w =
      (Returns res,
       after_child w (child_run w FINISHED params
                        [("eval_rmse", loss res)]
                        [("model", (model res, signature G))])) /\
      trained_on L params epochs tX ty vX vy res).
Proof.
  unfold model_train, bind, lift.
  destruct (keras_Sequential L _ _ _) as [m0|e] eqn:E0; [|left; eauto].
  destruct (getitem params "lr") as [lr|e] eqn:E1; [|left; eauto].
  destruct (getitem params "momentum") as [mo|e] eqn:E2; [|left; eauto].
  destruct (compile L m0 lr mo) as [m1|e] eqn:E3; [|left; eauto].
  right. unfold with_start_run. rewrite start_run_nested. unfold create_run.
  destruct (fit L m1 tX ty vX vy epochs 64) as [m2|e] eqn:E4.
  2:{ left. exists e. cbn.
      rewrite (alter_run_app_last _ (runs w) _ []). reflexivity. }
  destruct (evaluate L m2 vX vy 64) as [ev|e] eqn:E5.
  2:{ left. exists e. cbn.
      rewrite (alter_run_app_last _ (runs w) _ []). reflexivity. }
  unfold getitem_list.
  destruct (nth_error ev 1) as [rmse|] eqn:E6.
  2:{ left. exists IndexError. cbn.
      rewrite (alter_run_app_last _ (runs w) _ []). reflexivity. }
  right. exists (mkResult rmse STATUS_OK m2). split.
  - cbn. unfold set_runs; cbn.
    rewrite !(alter_run_app_last _ (runs w) _ []). reflexivity.
  - exists m0, lr, mo, m1, ev. cbn. auto 10.
Qed.

Lemma grow_nil (w : World) : grow w [] = w.
Proof. destruct w. unfold grow. cbn. now rewrite app_nil_r. Qed.

Lemma grow_after_child (w : World) (c : Run) (children : list Run) :
  grow (after_child w c) children = grow w (c :: children).
Proof.
  unfold grow, after_child. cbn. rewrite <- app_assoc. cbn. f_equal. lia.
Qed.

Lemma children_ok_nil (top : option nat) (c0 : nat) :
  children_ok (Model:=Model) (Signature:=Signature) top c0 [].
Proof. intros [|i] r H; discriminate. Qed.

Lemma children_ok_cons (top : option nat) (c0 : nat) (c : Run)
    (children : list Run) :
  parent_run_id c = top -> start_time c = c0 -> end_time c = Some (S c0) ->
  sealed (run_status c) = true ->
  children_ok top (S (S c0)) children ->
  children_ok top c0 (c :: children).
Proof.
  intros Hp Hs He Hst Hch [|i] r Hr; cbn in Hr.
  - injection Hr as <-. auto.
  - destruct (Hch i r Hr) as (H1 & H2 & H3 & H4).
    rewrite H2, H3. split; [trivial|]. split; [lia|].
    split; [f_equal; lia|trivial].
Qed.

(** The loop of [fmin] on the notebook's objective: every iteration appends
    one child run, and only the last one can be a failed one. *)
Lemma FMinIter_run_objective algo sp (n : nat) :
  forall (rs : RState) (ts : list (Trial Model)) (w : World),
  exists children,
    snd (FMinIter_run L (objective L G) algo sp n rs ts w) = grow w children /\
    children_ok (hd_error (active_run_stack w)) (clock w) children /\
    (List.length children <= n)%nat /\
    match fst (FMinIter_run L (objective L G) algo sp n rs ts w) with
    | Returns ts' =>
        exists new, ts' = ts ++ new /\ Forall2 (recorded G) new children /\
                    List.length children = n
    | Raises _ => True
    end.
Proof.
  induction n as [|n IH]; intros rs ts w.
  - exists []. cbn. rewrite grow_nil.
    refine (conj eq_refl (conj (children_ok_nil _ _) (conj (le_n _) _))).
    exists []. rewrite app_nil_r. auto.
  - cbn. destruct (propose L algo sp rs ts) as [p rs']. unfold bind.
    unfold objective at 1 3.
    destruct (model_train_cases p 3 (train_X G) (train_y G) (validation_X G)
                (validation_y G) (test_X G) (test_y G) w)
      as [(e & ->)|[(e & ->)|(res & -> & Hok)]].
    + exists []. cbn. rewrite grow_nil.
      refine (conj eq_refl (conj (children_ok_nil _ _) (conj _ I))). lia.
    + exists [child_run w FAILED [] [] []]. cbn.
      refine (conj eq_refl (conj _ (conj _ I))); [|lia].
      apply children_ok_cons; auto using children_ok_nil.
    + set (c := child_run w FINISHED p [("eval_rmse", loss res)]
                  [("model", (model res, signature G))]).
      destruct (IH rs' (ts ++ [mkTrial p res]) (after_child w c))
        as (children & Hw & Hch & Hlen & Hres).
      exists (c :: children). rewrite Hw, grow_after_child.
      refine (conj eq_refl (conj _ (conj _ _))).
      * apply children_ok_cons; trivial.
      * cbn. lia.
      * destruct (fst (FMinIter_run _ _ _ _ _ _ _ _)) as [ts'|e]; trivial.
        destruct Hres as (new & -> & Hrec & Hn).
        exists (mkTrial p res :: new). rewrite <- app_assoc.
        refine (conj eq_refl (conj _ _)).
        -- constructor; trivial. destruct Hok as (? & ? & ? & ? & ? & Hok).
           unfold recorded. cbn. intuition.
        -- cbn. lia.
Qed.

(** What the search cell leaves behind, from a world with no active run:
    the store gains the top-level run followed by the child runs; the
    top-level run is sealed after every child, FINISHED when the cell
    completes and FAILED when it raises; the registry is as it was. *)
Lemma run_search_summary (n : nat) (rs : RState) (w0 : World) :
  active_run_stack w0 = [] ->
  exists children top,
    runs (snd (run_search L G n rs w0)) = runs w0 ++ top :: children /\
    active_run_stack (snd (run_search L G n rs w0)) = [] /\
    registry (snd (run_search L G n rs w0)) = registry w0 /\
    parent_run_id top = None /\
    start_time top = clock w0 /\
    end_time top = Some (2 * List.length children + S (clock w0))%nat /\
    children_ok (Some (List.length (runs w0))) (S (clock w0)) children /\
    (List.length children <= n)%nat /\
    match fst (run_search L G n rs w0) with
    | Returns b =>
        run_status top = FINISHED /\
        List.length children = n /\
        Forall2 (recorded G) (trials b) children /\
        run_params top = best b /\
        run_metrics top = [("eval_rmse", loss (best_run b))] /\
        run_artifacts top = [("model", (model (best_run b), signature G))] /\
        argmin (trials b) = Returns (best b) /\
        fetch_best_run (map (@result Model) (trials b)) = Returns (best_run b)
    | Raises _ => run_status top = FAILED
    end.
Proof.
  intros Hstack.
  unfold run_search, fmin. cbn [List.length]. rewrite Nat.sub_0_r.
  unfold bind, set_experiment, modify, with_start_run, start_run.
  cbn. rewrite Hstack. unfold create_run. cbn. rewrite ?Hstack. cbn.
  set (top0 := mkRun None RUNNING (clock w0) None [] [] []).
  set (w1 := mkWorld _ _ _ _ _ _).
  unfold fmin, bind.
  destruct (FMinIter_run_objective (tpe_suggest L) space n rs [] w1)
    as (children & Hw & Hch & Hlen & Hres).
  pose (failed := set_terminated FAILED
                    (2 * List.length children + S (clock w0)) top0).
  destruct (FMinIter_run _ _ _ _ _ _ _ _) as [[ts'|e] w2];
    cbn in Hw, Hres; subst w2.
  2:{ exists children, failed.
      cbn. rewrite <- app_assoc. cbn. rewrite alter_run_app_last.
      repeat (split; trivial). }
  destruct Hres as (new & -> & Hrec & Hn). cbn in Hrec |- *.
  destruct new as [|t new].
  { exists children, failed.
    cbn. rewrite <- app_assoc. cbn. rewrite alter_run_app_last.
    repeat (split; trivial). }
  unfold lift. destruct (argmin (t :: new)) as [bst|e] eqn:Ebest.
  2:{ exists children, failed.
      cbn. rewrite <- app_assoc. cbn. rewrite alter_run_app_last.
      repeat (split; trivial). }
  cbn.
  destruct (fetch_best_run (result t :: map (@result Model) new))
    as [br|e] eqn:Ebr.
  2:{ exists children, failed.
      cbn. rewrite <- app_assoc. cbn. rewrite alter_run_app_last.
      repeat (split; trivial). }
  exists children.
  exists (set_terminated FINISHED (2 * List.length children + S (clock w0))
            (add_artifact "model" (model br, signature G)
               (add_metric "eval_rmse" (loss br) (add_params bst top0)))).
  cbn. unfold set_runs. cbn. rewrite <- app_assoc. cbn.
  rewrite !alter_run_app_last. cbn.
  repeat (split; trivial).
Qed.

(** *** The trainer *)

(** C10.  Every value returned by [model_train] carries [STATUS_OK], whatever
    the evaluated loss: when [model_train] returns, the status of its result
    is [STATUS_OK] and its loss is the number the evaluation on the
    validation data produced, unchanged. *)
Theorem model_train_returns_STATUS_OK (params : Params) (epochs : nat)
    (tX : Matrix) (ty : Vector) (vX : Matrix) (vy : Vector)
    (teX : Matrix) (tey : Vector) (w w' : World) (res : Result Model) :
  model_train L G params epochs tX ty vX vy teX tey w = (Returns res, w') ->
  status res = STATUS_OK /\
  exists eval_result,
    evaluate L (model res) vX vy 64 = Returns eval_result /\
    nth_error eval_result 1 = Some (loss res).
Proof.
  intros H.
  destruct (model_train_cases params epochs tX ty vX vy teX tey w)
    as [(e & He)|[(e & He)|(res' & He & Hres)]];
    rewrite He in H; try discriminate.
  injection H as -> _.
  destruct Hres as (m0 & lr & mo & m1 & ev & _ & _ & _ & _ & _ & Hev & Hn & Hst).
  eauto.
Qed.

(** C9.  The result of [model_train] does not depend on the test data: two
    calls that differ only in [test_X] and [test_y] are the same computation,
    a returned loss is the RMSE evaluated on the validation data, and the
    objective of two notebooks whose globals differ only in the test data is
    the same. *)
Theorem model_train_ignores_test_data (params : Params) (epochs : nat)
    (tX : Matrix) (ty : Vector) (vX : Matrix) (vy : Vector)
    (teX teX' : Matrix) (tey tey' : Vector) (w : World) :
  model_train L G params epochs tX ty vX vy teX tey w =
  model_train L G params epochs tX ty vX vy teX' tey' w /\
  (forall res w',
      model_train L G params epochs tX ty vX vy teX tey w = (Returns res, w') ->
      trained_on L params epochs tX ty vX vy res) /\
  (forall G' : Globals Matrix Vector Signature,
      train_X G' = train_X G -> train_y G' = train_y G ->
      validation_X G' = validation_X G -> validation_y G' = validation_y G ->
      signature G' = signature G ->
      objective L G' params w = objective L G params w).
Proof.
  split; [reflexivity|]. split.
  - intros res w' H.
    destruct (model_train_cases params epochs tX ty vX vy teX tey w)
      as [(e & He)|[(e & He)|(res' & He & Hres)]];
      rewrite He in H; try discriminate.
    now injection H as -> _.
  - intros G' H1 H2 H3 H4 H5. unfold objective, model_train.
    now rewrite H1, H2, H3, H4, H5.
Qed.

(** *** The scopes of the runs *)

Lemma Forall2_nth_error_l {A B : Type} (P : A -> B -> Prop) (l : list A)
    (l' : list B) (k : nat) (a : A) :
  Forall2 P l l' -> nth_error l k = Some a ->
  exists b, nth_error l' k = Some b /\ P a b.
Proof.
  intros H. revert k. induction H as [|x y l l' Hxy _ IH]; intros [|k] Hk;
    try discriminate; cbn in *.
  - injection Hk as <-. eauto.
  - now apply IH.
Qed.

Lemma children_ok_In (top : option nat) (c0 : nat) (children : list Run)
    (c : Run) :
  children_ok top c0 children -> In c children ->
  parent_run_id c = top /\ sealed (run_status c) = true /\
  end_time c <> None.
Proof.
  intros Hch Hc. apply In_nth_error in Hc. destruct Hc as [i Hi].
  destruct (Hch i c Hi) as (H1 & _ & H3 & H4). rewrite H3.
  repeat split; trivial. discriminate.
Qed.

(** C4.  Every run that is begun is ended on every exit path of its scope.
    From a world with no active run, when the search cell gives control
    back (whether it returns or raises) no run is active, the runs that
    existed are untouched, and the top-level run and every child run are
    sealed with an end time; the top-level run is FINISHED when the cell
    returns and FAILED when it raises.  And whatever the world, when
    [model_train] gives control back the stack of active runs is as it was,
    and the run it began, if any, is sealed: FINISHED when it returns, FAILED
    when the training body raises. *)
Theorem begun_runs_are_ended (n : nat) (rs : RState) (w0 : World) :
  active_run_stack w0 = [] ->
  (active_run_stack (snd (run_search L G n rs w0)) = [] /\
   exists top children,
     runs (snd (run_search L G n rs w0)) = runs w0 ++ top :: children /\
     end_time top <> None /\
     run_status top = (if returned (fst (run_search L G n rs w0))
                       then FINISHED else FAILED) /\
     forall c, In c children ->
               sealed (run_status c) = true /\ end_time c <> None) /\
  (forall params epochs tX ty vX vy teX tey (w : World),
     active_run_stack (snd (model_train L G params epochs tX ty vX vy teX tey w))
       = active_run_stack w /\
     (runs (snd (model_train L G params epochs tX ty vX vy teX tey w)) = runs w \/
      exists child,
        runs (snd (model_train L G params epochs tX ty vX vy teX tey w))
          = runs w ++ [child] /\
        end_time child = Some (S (clock w)) /\
        run_status child =
          (if returned (fst (model_train L G params epochs tX ty vX vy teX tey w))
           then FINISHED else FAILED))).
Proof.
  intros Hstack. split.
  - destruct (run_search_summary n rs w0 Hstack)
      as (children & top & Hruns & Hact & _ & _ & _ & Hend & Hch & _ & Hout).
    split; trivial. exists top, children.
    split; trivial. split; [rewrite Hend; discriminate|]. split.
    + destruct (fst (run_search L G n rs w0)); cbn; tauto.
    + intros c Hc. eapply children_ok_In; eauto.
  - intros params epochs tX ty vX vy teX tey w.
    destruct (model_train_cases params epochs tX ty vX vy teX tey w)
      as [(e & ->)|[(e & ->)|(res & -> & _)]]; cbn; split; eauto.
Qed.

(** C8.  From a world with no active run, the search cell creates one
    top-level run, which has no parent; every run created after it is a
    child of it (its parent is the top-level run, and no other), begins
    after the top-level run begins and is sealed before the top-level run is
    sealed; and, when the cell returns, the result of the k-th trial is
    recorded by the k-th of these child runs. *)
Theorem child_runs_within_top_level_run (n : nat) (rs : RState) (w0 : World) :
  active_run_stack w0 = [] ->
  exists top,
    nth_error (runs (snd (run_search L G n rs w0))) (List.length (runs w0))
      = Some top /\
    parent_run_id top = None /\
    (forall i child,
        (List.length (runs w0) < i)%nat ->
        nth_error (runs (snd (run_search L G n rs w0))) i = Some child ->
        parent_run_id child = Some (List.length (runs w0)) /\
        exists t_end top_end,
          end_time child = Some t_end /\ end_time top = Some top_end /\
          (start_time top < start_time child)%nat /\
          (start_time child < t_end)%nat /\
          (t_end < top_end)%nat) /\
    (forall b k t,
        fst (run_search L G n rs w0) = Returns b ->
        nth_error (trials b) k = Some t ->
        exists child,
          nth_error (runs (snd (run_search L G n rs w0)))
                    (List.length (runs w0) + 1 + k) = Some child /\
          recorded G t child).
Proof.
  intros Hstack.
  destruct (run_search_summary n rs w0 Hstack)
    as (children & top & Hruns & _ & _ & Hpar & Hstart & Hend & Hch & _ & Hout).
  exists top. rewrite Hruns. split; [|split; [trivial|split]].
  - rewrite nth_error_app2, Nat.sub_diag by lia. reflexivity.
  - intros i child Hi Hc.
    rewrite nth_error_app2 in Hc by lia.
    destruct (i - List.length (runs w0))%nat as [|j] eqn:Ej; [lia|].
    cbn in Hc. destruct (Hch j child Hc) as (H1 & H2 & H3 & _).
    split; trivial. do 2 eexists. split; [exact H3|]. split; [exact Hend|].
    assert (j < List.length children)%nat
      by (apply nth_error_Some; congruence).
    rewrite Hstart, H2. lia.
  - intros b k t Hb Hk. rewrite Hb in Hout.
    destruct Hout as (_ & _ & Hrec & _).
    destruct (Forall2_nth_error_l k Hrec Hk) as (child & Hchild & Hr).
    exists child. split; trivial.
    rewrite nth_error_app2 by lia.
    replace (List.length (runs w0) + 1 + k - List.length (runs w0))%nat
      with (S k) by lia.
    exact Hchild.
Qed.

(** C3 (as amended).  From a world with no active run, the search cell with
    budget [n] adds to the store the top-level run and at most [n] child
    runs; each child run has the top-level run as parent, and when the cell
    gives control back the top-level run and every child run are sealed.
    When the cell returns, which it only does when no trial raised, the
    child runs are exactly [n]. *)
Theorem run_search_child_runs (n : nat) (rs : RState) (w0 : World) :
  active_run_stack w0 = [] ->
  exists top children,
    runs (snd (run_search L G n rs w0)) = runs w0 ++ top :: children /\
    sealed (run_status top) = true /\
    (forall c, In c children ->
               parent_run_id c = Some (List.length (runs w0)) /\
               sealed (run_status c) = true) /\
    (List.length children <= n)%nat /\
    (returned (fst (run_search L G n rs w0)) = true ->
     List.length children = n).
Proof.
  intros Hstack.
  destruct (run_search_summary n rs w0 Hstack)
    as (children & top & Hruns & _ & _ & _ & _ & _ & Hch & Hlen & Hout).
  exists top, children. split; trivial.
  split; [|split; [|split; trivial]].
  - destruct (fst (run_search L G n rs w0)) as [b|e].
    + destruct Hout as (-> & _). reflexivity.
    + now rewrite Hout.
  - intros c Hc. eapply children_ok_In in Hc; eauto. tauto.
  - destruct (fst (run_search L G n rs w0)) as [b|e]; [|discriminate].
    intros _. tauto.
Qed.

(** *** Trials that fail *)

(** An exception of the objective ends the loop of [fmin] at once: nothing
    is recorded for the trial and no further trial is run. *)
Lemma FMinIter_run_raises fn algo sp (n : nat) (rs : RState)
    (ts : list (Trial Model)) (w : World) (e : exn) :
  fst (fn (fst (propose L algo sp rs ts)) w) = Raises e ->
  FMinIter_run L fn algo sp (S n) rs ts w
  = (Raises e, snd (fn (fst (propose L algo sp rs ts)) w)).
Proof.
  cbn. destruct (propose L algo sp rs ts) as [p rs']. cbn. unfold bind.
  destruct (fn p w) as [[r|e'] w']; cbn; congruence.
Qed.

(** C2 (as amended).  A trial whose training diverges is recorded as it was
    evaluated: when the objective returns, its status is [STATUS_OK] and its
    loss is the number the evaluation produced, with no [+infinity] put in
    its place.  A trial whose trainer raises is not recorded: the exception
    ends the loop of [fmin] at once, in the world that trial left, and no
    further trial is run.  With a trainer that always raises, for
    every budget [n >= 1] the search cell raises, no more than one child
    run was begun, it is sealed FAILED with no metric, and the top-level run
    is sealed FAILED. *)
Theorem failed_trial_ends_search :
  (forall params (w w' : World) res,
      objective L G params w = (Returns res, w') ->
      status res = STATUS_OK /\
      exists eval_result,
        evaluate L (model res) (validation_X G) (validation_y G) 64
          = Returns eval_result /\
        nth_error eval_result 1 = Some (loss res)) /\
  (forall algo sp n rs ts (w : World) e,
      fst (objective L G (fst (propose L algo sp rs ts)) w) = Raises e ->
      FMinIter_run L (objective L G) algo sp (S n) rs ts w
      = (Raises e, snd (objective L G (fst (propose L algo sp rs ts)) w))) /\
  ((forall params (w : World), returned (fst (objective L G params w)) = false) ->
   forall n rs (w0 : World),
     (1 <= n)%nat -> active_run_stack w0 = [] ->
     exists e top children,
       fst (run_search L G n rs w0) = Raises e /\
       runs (snd (run_search L G n rs w0)) = runs w0 ++ top :: children /\
       run_status top = FAILED /\
       (List.length children <= 1)%nat /\
       forall c, In c children -> run_status c = FAILED /\ run_metrics c = []).
Proof.
  split; [|split].
  - intros params w w' res H. unfold objective in H.
    destruct (model_train_cases params 3 (train_X G) (train_y G)
                (validation_X G) (validation_y G) (test_X G) (test_y G) w)
      as [(e & He)|[(e & He)|(res' & He & Hres)]];
      rewrite He in H; try discriminate.
    injection H as -> _.
    destruct Hres as (m0 & lr & mo & m1 & ev & _ & _ & _ & _ & _ & Hev & Hn & Hst).
    eauto.
  - intros algo sp n rs ts w e H. now apply FMinIter_run_raises.
  - intros Hraise [|n] rs w0 Hn Hstack; [lia|].
    unfold run_search, fmin. cbn [List.length]. rewrite Nat.sub_0_r.
    unfold bind, set_experiment, modify, with_start_run, start_run.
    cbn. rewrite Hstack. unfold create_run. cbn. rewrite ?Hstack. cbn.
    set (top0 := mkRun None RUNNING (clock w0) None [] [] []).
    set (w1 := mkWorld _ _ _ _ _ _).
    unfold fmin, bind. cbn [FMinIter_run].
    destruct (propose L (tpe_suggest L) space rs []) as [p rs'].
    unfold bind. specialize (Hraise p w1). unfold objective in *.
    destruct (model_train_cases p 3 (train_X G) (train_y G)
                (validation_X G) (validation_y G) (test_X G) (test_y G) w1)
      as [(e & He)|[(e & He)|(res' & He & Hres)]]; rewrite He in *;
      try discriminate; cbn.
    + exists e, (set_terminated FAILED (S (clock w0)) top0), [].
      rewrite (alter_run_app_last _ (runs w0) _ []).
      do 3 (split; [reflexivity|]). split; [cbn; lia|]. intros c [].
    + exists e, (set_terminated FAILED (S (S (S (clock w0)))) top0),
        [child_run w1 FAILED [] [] []].
      rewrite <- app_assoc. cbn. rewrite alter_run_app_last.
      do 3 (split; [reflexivity|]). split; [cbn; lia|].
      intros c [<-|[]]. split; reflexivity.
Qed.

(** *** The best trial *)





(** *** Determinism *)



End NotebookFacts.

(** ** The notebook on the stub trainer *)

Lemma model_train_returns_STATUS_OK_witness :
  status (mkResult 0%float STATUS_OK (0.05, 0.5)%float) = STATUS_OK /\
  exists eval_result,
    evaluate Stub.libraries (0.05, 0.5)%float tt tt 64 = Returns eval_result /\
    nth_error eval_result 1 = Some 0%float.
Proof.
  apply (model_train_returns_STATUS_OK Stub.libraries Stub.globals
           (Stub.config 0.05 0.5) 3 tt tt tt tt tt tt Stub.fresh
           (w' := snd (model_train Stub.libraries Stub.globals
                         (Stub.config 0.05 0.5) 3 tt tt tt tt tt tt
                         Stub.fresh))).
  reflexivity.
Defined.

Lemma begun_runs_are_ended_witness :
  active_run_stack
    (snd (run_search Stub.raising Stub.globals 12 0%nat Stub.fresh)) = [] /\
  map (@run_status Stub.Model unit)
    (runs (snd (run_search Stub.raising Stub.globals 12 0%nat Stub.fresh)))
    = [FAILED; FAILED].
Proof.
  split.
  - apply (begun_runs_are_ended Stub.raising Stub.globals 12 0%nat
             Stub.fresh). reflexivity.
  - reflexivity.
Defined.

Lemma child_runs_within_top_level_run_witness :
  exists top,
    nth_error (runs (snd (run_search Stub.libraries Stub.globals 12 0%nat
                            Stub.fresh))) 0 = Some top /\
    parent_run_id top = None.
Proof.
  destruct (child_runs_within_top_level_run Stub.libraries Stub.globals 12
              0%nat Stub.fresh eq_refl) as (top & H1 & H2 & _).
  exists top. split; [exact H1 | exact H2].
Defined.

(** The notebook's cell, with its budget of 12. *)
Lemma run_search_child_runs_witness :
  exists top children,
    runs (snd (cell Stub.libraries Stub.globals 0%nat Stub.fresh))
      = top :: children /\
    List.length children = 12%nat.
Proof.
  destruct (run_search_child_runs Stub.libraries Stub.globals 12 0%nat
              Stub.fresh eq_refl)
    as (top & children & H1 & _ & _ & _ & H5).
  exists top, children. split; [exact H1 | apply H5; reflexivity].
Defined.

(** C3, as stated, fails when a trial raises: with a training that always
    raises and a budget of 3, one child run is created, not three. *)
Lemma run_search_raising_counterexample :
  List.length
    (runs (snd (run_search Stub.raising Stub.globals 3 0%nat Stub.fresh)))
    = 2%nat /\
  ~ (exists top children,
        runs (snd (run_search Stub.raising Stub.globals 3 0%nat Stub.fresh))
          = top :: children /\
        List.length children = 3%nat).
Proof.
  split; [reflexivity|].
  intros (top & children & H & Hlen).
  assert (E : List.length
                (runs (snd (run_search Stub.raising Stub.globals 3 0%nat
                              Stub.fresh))) = 2%nat) by reflexivity.
  rewrite H in E. cbn in E. lia.
Qed.

(** ** The best selection *)

(** C1 (as amended).  For every non-empty list of trial results none of whose
    losses is NaN, [best_run] is a result of least loss: its loss is below or
    equal to the loss of every result of the list, and strictly below the
    loss of every result recorded before it, so that of two results with the
    same loss the one recorded first is selected. *)
Theorem best_run_earliest_minimum (Model : Type)
    (results : list (Result Model)) :
  results <> [] ->
  (forall r, In r results -> is_nan (loss r) = false) ->
  exists i best_run,
    fetch_best_run results = Returns best_run /\
    earliest_minimum (@loss Model) results i best_run.
Proof.
  intros Hne Hnan.
  destruct (sorted_head_earliest_minimum (@loss Model) Hne Hnan)
    as (i & m & t & Hs & Hm).
  exists i, m. split; trivial.
  unfold fetch_best_run, getitem_list. now rewrite Hs.
Qed.

Lemma best_run_earliest_minimum_witness :
  exists i best_run,
    fetch_best_run Stub.tied = Returns best_run /\
    earliest_minimum (@loss Stub.Model) Stub.tied i best_run.
Proof.
  apply (@best_run_earliest_minimum Stub.Model Stub.tied).
  - discriminate.
  - intros r [<-|[<-|[<-|[]]]]; reflexivity.
Defined.

(** C1, as stated, fails when a loss is NaN: of a diverged trial followed by
    a trial of loss 1, [best_run] is the diverged one, and its loss is not
    below or equal to 1. *)
Lemma best_run_nan_counterexample :
  Stub.diverged_then_one <> [] /\
  fetch_best_run Stub.diverged_then_one
    = Returns (mkResult nan STATUS_OK (0.1, 0.9)%float) /\
  ~ (exists i best_run,
        fetch_best_run Stub.diverged_then_one = Returns best_run /\
        earliest_minimum (@loss Stub.Model) Stub.diverged_then_one i best_run).
Proof.
  split; [discriminate|]. split; [reflexivity|].
  intros (i & b & Hb & _ & Hmin & _).
  vm_compute in Hb. injection Hb as <-.
  specialize (Hmin (mkResult 1%float STATUS_OK (0.01, 0.3)%float)).
  cbn in Hmin. discriminate Hmin. right. now left.
Qed.

(** ** Failed trials and the registry, on the stub trainer *)

Lemma failed_trial_ends_search_witness :
  exists e top children,
    fst (run_search Stub.raising Stub.globals 12 0%nat Stub.fresh) = Raises e /\
    runs (snd (run_search Stub.raising Stub.globals 12 0%nat Stub.fresh))
      = runs Stub.fresh ++ top :: children /\
    run_status top = FAILED /\
    (List.length children <= 1)%nat /\
    forall c, In c children -> run_status c = FAILED /\ run_metrics c = [].
Proof.
  apply (proj2 (proj2 (failed_trial_ends_search Stub.raising Stub.globals))).
  - intros params w. unfold objective, model_train, bind, lift. cbn.
    destruct (getitem params "lr"); trivial.
    destruct (getitem params "momentum"); trivial.
    unfold with_start_run, start_run.
    destruct (active_run_stack w); reflexivity.
  - lia.
  - reflexivity.
Defined.

(** C2, as stated, fails.  With a training that always raises and a budget
    of 3 the search cell raises: it does not complete with three trials of
    score [+infinity].  And a training that diverges is recorded with the
    loss NaN it was evaluated to, not with [+infinity]. *)
Lemma always_raising_trainer_counterexample :
  fst (run_search Stub.raising Stub.globals 3 0%nat Stub.fresh)
    = Raises (KerasError 1) /\
  ~ (exists b,
        fst (run_search Stub.raising Stub.globals 3 0%nat Stub.fresh)
          = Returns b /\
        List.length (trials b) = 3%nat /\
        forall t, In t (trials b) -> loss (result t) = infinity) /\
  fst (objective Stub.diverging Stub.globals (Stub.config 0.05 0.5) Stub.fresh)
    = Returns (mkResult nan STATUS_OK (0.05, 0.5)%float).
Proof.
  split; [reflexivity|]. split; [|reflexivity].
  intros (b & Hb & _). vm_compute in Hb. discriminate.
Qed.



(** ** Draws stay in their domain *)

Section SamplingFacts.
Variable Gen : Type.
Variable random : Gen -> R * Gen.
Variable randint : nat -> Gen -> nat * Gen.
Hypothesis random_range : forall g, (0 <= fst (random g) < 1)%R.
Hypothesis randint_range :
  forall n g, (0 < n)%nat -> (fst (randint n g) < n)%nat.

Local Open Scope R_scope.





End SamplingFacts.


(** ** Determinism *)



(** ** More facts about the trainer and the search cell *)

Section SearchTraceFacts.
Variables Matrix Vector Model Signature RState : Type.
Variable L : Libraries Matrix Vector Model RState.
Variable G : Globals Matrix Vector Signature.

Local Abbreviation World := (World Model Signature).
Local Abbreviation Run := (Run Model Signature).

Lemma getitem_raises_KeyError (d : Params) (k : string) (e : exn) :
  getitem d k = Raises e -> e = KeyError k.
Proof.
  induction d as [|[k' v] d IH]; cbn.
  - congruence.
  - destruct (String.eqb k' k); [discriminate | exact IH].
Qed.

(** The trials the loop of [fmin] returns: the history it started from,
    followed by [n] new trials; the k-th new trial holds the configuration
    proposed from the random state after [k] proposals and the history
    before it, and the result the objective returned for it. *)
Lemma FMinIter_run_trace fn algo sp (n : nat) :
  forall (rs : RState) (ts ts' : list (Trial Model)) (w w' : World),
    FMinIter_run L fn algo sp n rs ts w = (Returns ts', w') ->
    exists new,
      ts' = ts ++ new /\ List.length new = n /\
      forall k t, nth_error new k = Some t ->
        misc_vals t
          = fst (propose L algo sp (rstate_after L k rs) (ts ++ firstn k new)) /\
        exists wk wk', fn (misc_vals t) wk = (Returns (result t), wk').
Proof.
  induction n as [|n IH]; intros rs ts ts' w w' H.
  - cbn in H. injection H as <- _. exists []. rewrite app_nil_r.
    split; [reflexivity|]. split; [reflexivity|].
    intros [|k] t Hk; discriminate.
  - cbn in H. destruct (propose L algo sp rs ts) as [p rs'] eqn:Ep.
    unfold bind in H. destruct (fn p w) as [[r|e] w1] eqn:Efn; [|discriminate].
    destruct (IH _ _ _ _ _ H) as (new & -> & Hlen & Hnew).
    exists (mkTrial p r :: new). rewrite <- app_assoc. split; [reflexivity|].
    split; [cbn; lia|]. intros [|k] t Hk; cbn in Hk.
    + injection Hk as <-. cbn. rewrite app_nil_r, Ep. eauto.
    + destruct (Hnew k t Hk) as (Hp & Hfn). split; [|exact Hfn].
      rewrite Hp. cbn [rstate_after firstn].
      unfold propose in Ep. destruct (rstate_integers L rs) as [seed rs0].
      injection Ep as _ <-. cbn [snd]. now rewrite <- app_assoc.
Qed.

Lemma nanargmin_In {A : Type} (key : A -> float) (cs : list A) (c : A) :
  In (nanargmin key c cs) (c :: cs).
Proof.
  unfold nanargmin. revert c. induction cs as [|x cs IH]; intros c; cbn.
  - now left.
  - destruct (key x <? key c)%float.
    + right. apply IH.
    + destruct (IH c) as [H|H]; [now left | right; now right].
Qed.

Lemma best_trial_In (ts : list (Trial Model)) (t : Trial Model) :
  best_trial ts = Returns t ->
  In t ts /\ status (result t) = STATUS_OK /\ is_nan (loss (result t)) = false.
Proof.
  unfold best_trial.
  destruct (filter _ ts) as [|c cs] eqn:E; [discriminate|].
  intros H. injection H as <-.
  pose proof (nanargmin_In (fun t => loss (result t)) cs c) as Hin.
  rewrite <- E in Hin. apply filter_In in Hin. destruct Hin as [Hin Hf].
  apply andb_prop in Hf. destruct Hf as [H1 H2].
  split; trivial. split.
  - destruct (status (result _)); trivial; discriminate.
  - now destruct (is_nan _).
Qed.



(** The search cell, seen from the loop of [fmin] that it runs in the world
    [search_started w0].  When the cell returns, the loop returned the
    trials the cell binds, and the two lines printed are the configuration
    and the loss logged on the top-level run.  When the cell raises, nothing
    is printed, nothing is logged on the top-level run, and the exception
    is the one the loop raised, or [fmin]'s own when the loop returned. *)
Lemma run_search_report (n : nat) (rs : RState) (w0 : World) :
  active_run_stack w0 = [] ->
  experiment (snd (run_search L G n rs w0)) = Some "/wine-quality" /\
  match fst (run_search L G n rs w0) with
  | Returns b =>
      fst (FMinIter_run L (objective L G) (tpe_suggest L) space n rs []
             (search_started w0)) = Returns (trials b) /\
      argmin (trials b) = Returns (best b) /\
      fetch_best_run (map (@result Model) (trials b)) = Returns (best_run b) /\
      stdout (snd (run_search L G n rs w0))
        = stdout w0 ++ [BestParameters (best b);
                        BestEvalRmse (loss (best_run b))]
  | Raises e =>
      stdout (snd (run_search L G n rs w0)) = stdout w0 /\
      (exists top,
          nth_error (runs (snd (run_search L G n rs w0)))
                    (List.length (runs w0)) = Some top /\
          run_params top = [] /\ run_metrics top = [] /\
          run_artifacts top = []) /\
      (fst (FMinIter_run L (objective L G) (tpe_suggest L) space n rs []
              (search_started w0)) = Raises e \/
       exists ts,
         fst (FMinIter_run L (objective L G) (tpe_suggest L) space n rs []
                (search_started w0)) = Returns ts /\
         List.length ts = n /\
         ((ts = [] /\ e = NoEvaluationTasks) \/ argmin ts = Raises e))
  end.
Proof.
  intros Hstack.
  unfold run_search, fmin. cbn [List.length]. rewrite Nat.sub_0_r.
  unfold bind, set_experiment, modify, with_start_run, start_run.
  cbn. rewrite Hstack. unfold create_run. cbn. rewrite ?Hstack. cbn.
  set (top0 := mkRun None RUNNING (clock w0) None [] [] []).
  change (mkWorld (Some "/wine-quality") (runs w0 ++ [top0])
            [List.length (runs w0)] (S (clock w0)) (registry w0) (stdout w0))
    with (search_started w0).
  destruct (FMinIter_run_objective L G (tpe_suggest L) space n rs []
              (search_started w0))
    as (children & Hw & _ & _ & Hres).
  destruct (FMinIter_run _ _ _ _ _ _ _ _) as [[ts'|e] w2];
    cbn in Hw, Hres; subst w2.
  2:{ cbn. rewrite <- app_assoc. cbn. rewrite alter_run_app_last.
      rewrite nth_error_app2, Nat.sub_diag by lia. cbn. eauto 10. }
  destruct Hres as (new & -> & Hrec & Hn). cbn in Hrec |- *.
  apply Forall2_length in Hrec.
  destruct new as [|t new].
  { cbn. rewrite <- app_assoc. cbn. rewrite alter_run_app_last.
    rewrite nth_error_app2, Nat.sub_diag by lia. cbn.
    repeat (split; eauto). right. exists []. repeat split; auto.
    now rewrite <- Hn, <- Hrec. }
  unfold lift. destruct (argmin (t :: new)) as [bst|e] eqn:Ebest.
  2:{ cbn. rewrite <- app_assoc. cbn. rewrite alter_run_app_last.
      rewrite nth_error_app2, Nat.sub_diag by lia. cbn.
      repeat (split; eauto). right. exists (t :: new). repeat split; auto.
      now rewrite <- Hn, <- Hrec. }
  cbn.
  destruct (fetch_best_run (result t :: map (@result Model) new))
    as [br|e] eqn:Ebr.
  2:{ exfalso. unfold fetch_best_run, getitem_list in Ebr.
      destruct (sorted_cons_head (@loss Model) (result t)
                  (map (@result Model) new)) as [tl Htl].
      rewrite Htl in Ebr. discriminate. }
  cbn. rewrite <- app_assoc. cbn. repeat split; trivial.
Qed.

(** *** The trainer without its hyperparameters *)

(** X1.  When the configuration lacks ["lr"] or ["momentum"], [model_train]
    raises before its run is begun and leaves the world as it was; when the
    model could be built, the exception is the [KeyError] of the first key
    that is missing, ["lr"] being looked up first. *)
Theorem model_train_missing_hyperparameter (params : Params) (epochs : nat)
    (tX : Matrix) (ty : Vector) (vX : Matrix) (vy : Vector)
    (teX : Matrix) (tey : Vector) (w : World) :
  returned (getitem params "lr") && returned (getitem params "momentum") = false ->
  exists e,
    model_train L G params epochs tX ty vX vy teX tey w = (Raises e, w) /\
    (returned (keras_Sequential L (shape1 L tX) (np_mean L tX) (np_var L tX))
       = true ->
     e = if returned (getitem params "lr")
         then KeyError "momentum" else KeyError "lr").
Proof.
  intros H. unfold model_train, bind, lift.
  destruct (keras_Sequential L _ _ _) as [m0|e0].
  2:{ exists e0. split; [reflexivity | discriminate]. }
  destruct (getitem params "lr") as [lr|e1] eqn:E1.
  2:{ exists e1. split; [reflexivity|]. intros _. cbn.
      now apply getitem_raises_KeyError in E1. }
  destruct (getitem params "momentum") as [mo|e2] eqn:E2; [discriminate|].
  exists e2. split; [reflexivity|]. intros _. cbn.
  now apply getitem_raises_KeyError in E2.
Qed.

(** *** The cell and the active run *)

(** X2.  Run while a run is active, the search cell raises MLflow's
    exception at once: the experiment is set, and the store, the active
    runs, the clock, the registry and the printed lines are as they were. *)
Theorem run_search_with_active_run (n : nat) (rs : RState) (w0 : World) :
  active_run_stack w0 <> [] ->
  run_search L G n rs w0
  = (Raises MlflowException,
     mkWorld (Some "/wine-quality") (runs w0) (active_run_stack w0) (clock w0)
             (registry w0) (stdout w0)).
Proof.
  intros H. unfold run_search, bind, set_experiment, modify, with_start_run,
    start_run. cbn.
  destruct (active_run_stack w0) as [|r st]; [congruence | reflexivity].
Qed.

(** *** What the cell reports *)


(** *** How the cell fails *)


(** X5.  When every training diverges, that is when every result of the
    objective has the loss NaN, the cell never returns for a budget
    [n >= 1]: no best run is logged. *)
Theorem run_search_all_diverging (n : nat) (rs : RState) (w0 : World) :
  (forall params (w w' : World) res,
      objective L G params w = (Returns res, w') ->
      is_nan (loss res) = true) ->
  (1 <= n)%nat -> active_run_stack w0 = [] ->
  returned (fst (run_search L G n rs w0)) = false.
Proof.
  intros Hdiv Hn Hstack.
  destruct (run_search_report n rs w0 Hstack) as (_ & Hrep).
  destruct (fst (run_search L G n rs w0)) as [b|e]; [exfalso | reflexivity].
  destruct Hrep as (Hloop & Harg & _).
  unfold argmin in Harg.
  destruct (best_trial (trials b)) as [t|e'] eqn:Eb; [|discriminate].
  destruct (best_trial_In _ Eb) as (Ht & _ & Hnan).
  destruct (FMinIter_run L (objective L G) (tpe_suggest L) space n rs []
              (search_started w0)) as [o w1] eqn:Erun.
  cbn in Hloop. subst o.
  apply FMinIter_run_trace in Erun. destruct Erun as (new & Hnew & _ & Htr).
  cbn in Hnew. subst new.
  apply In_nth_error in Ht. destruct Ht as [k Hk].
  destruct (Htr k t Hk) as (_ & wk & wk' & Hobj).
  rewrite (Hdiv _ _ _ _ Hobj) in Hnan. discriminate.
Qed.

(** *** Where the top-level run's content comes from *)


(** *** What a recorded result is *)


(** *** What each proposal sees *)

(** X8.  From a world with no active run, when the cell returns it binds
    exactly [n] trials, and the configuration of the k-th is the one
    [tpe.suggest] gives for the k-th seed drawn from the random state and
    the history made of exactly the k trials before it. *)
Theorem run_search_proposals_see_history (n : nat) (rs : RState)
    (w0 : World) (b : Bindings Model) :
  active_run_stack w0 = [] ->
  fst (run_search L G n rs w0) = Returns b ->
  List.length (trials b) = n /\
  forall k t,
    nth_error (trials b) k = Some t ->
    misc_vals t
    = tpe_suggest L space (fst (rstate_integers L (rstate_after L k rs)))
                  (firstn k (trials b)).
Proof.
  intros Hstack Hb.
  destruct (run_search_report n rs w0 Hstack) as (_ & Hrep).
  rewrite Hb in Hrep. destruct Hrep as (Hloop & _).
  destruct (FMinIter_run L (objective L G) (tpe_suggest L) space n rs []
              (search_started w0)) as [o w1] eqn:Erun.
  cbn in Hloop. subst o.
  apply FMinIter_run_trace in Erun. destruct Erun as (new & Hnew & Hlen & Htr).
  cbn in Hnew. subst new. split; trivial.
  intros k t Hk. destruct (Htr k t Hk) as (Hp & _). rewrite Hp.
  unfold propose. cbn [app].
  now destruct (rstate_integers L (rstate_after L k rs)).
Qed.

End SearchTraceFacts.

(** *** [best_run] on any list of results *)


(** *** The notebook on the stub trainer, again *)

Lemma model_train_missing_hyperparameter_witness :
  model_train Stub.libraries Stub.globals [("momentum", 0.5%float)] 3
              tt tt tt tt tt tt Stub.fresh
  = (Raises (KeyError "lr"), Stub.fresh).
Proof.
  destruct (model_train_missing_hyperparameter Stub.libraries Stub.globals
              [("momentum", 0.5%float)] 3 tt tt tt tt tt tt Stub.fresh
              eq_refl) as (e & H & He).
  rewrite H, (He eq_refl). reflexivity.
Defined.

Lemma run_search_with_active_run_witness :
  fst (run_search Stub.libraries Stub.globals 12 0%nat busy)
    = Raises MlflowException /\
  runs (snd (run_search Stub.libraries Stub.globals 12 0%nat busy))
    = runs busy.
Proof.
  rewrite (run_search_with_active_run Stub.libraries Stub.globals 12 0%nat
             busy); [split; reflexivity | discriminate].
Defined.



Lemma diverging_objective (params : Params) (w w' : World Stub.Model unit)
    (res : Result Stub.Model) :
  objective Stub.diverging Stub.globals params w = (Returns res, w') ->
  is_nan (loss res) = true.
Proof.
  unfold objective. intros H.
  destruct (model_train_cases Stub.diverging Stub.globals params 3
              (train_X Stub.globals) (train_y Stub.globals)
              (validation_X Stub.globals) (validation_y Stub.globals)
              (test_X Stub.globals) (test_y Stub.globals) w)
    as [(e0 & H0)|[(e0 & H0)|(r & H0 & Hres)]];
    rewrite H0 in H; try discriminate.
  injection H as -> _.
  destruct Hres as (m0 & lr & mo & m1 & ev & _ & _ & _ & _ & _ & Hev & Hl & _).
  cbn in Hev. injection Hev as <-. cbn in Hl. injection Hl as Hl.
  now rewrite <- Hl.
Qed.

Lemma run_search_all_diverging_witness :
  returned (fst (run_search Stub.diverging Stub.globals 12 0%nat Stub.fresh))
  = false.
Proof.
  apply (run_search_all_diverging Stub.diverging Stub.globals (n := 12) 0%nat
           Stub.fresh).
  - apply diverging_objective.
  - lia.
  - reflexivity.
Defined.



Lemma run_search_proposals_see_history_witness :
  List.length (trials Stub.bindings12) = 12%nat.
Proof.
  apply (run_search_proposals_see_history Stub.libraries Stub.globals 12
           0%nat Stub.fresh (b := Stub.bindings12) eq_refl eq_refl).
Defined.

(** ** Facts about the split of the data *)

Ltac div_lia := zify; Z.to_euclidean_division_equations; lia.

Section SklearnFacts.
Import Sklearn.
Variable permutation : nat -> nat -> list nat.
Hypothesis permutation_spec :
  forall seed n, Permutation (permutation seed n) (seq 0 n).

Lemma safe_indexing_Forall2 {A : Type} (a : list A) (idx : list nat) :
  (forall i, In i idx -> (i < List.length a)%nat) ->
  exists l, safe_indexing a idx = Ok l /\ Forall2 (at_index a) idx l.
Proof.
  induction idx as [|i idx IH]; intros H; cbn.
  - exists []. split; [reflexivity | constructor].
  - destruct (nth_error a i) as [x|] eqn:Ex.
    2:{ apply nth_error_None in Ex. specialize (H i (or_introl eq_refl)). lia. }
    destruct IH as (l & -> & Hl). { intros j Hj. apply H. now right. }
    exists (x :: l). split; [reflexivity | now constructor].
Qed.

Lemma at_index_seq {A : Type} (a : list A) :
  Forall2 (at_index a) (seq 0 (List.length a)) a.
Proof.
  induction a as [|x a IH] using rev_ind; [constructor|].
  rewrite length_app. cbn. rewrite Nat.add_1_r, seq_S. cbn.
  apply Forall2_app.
  - eapply Forall2_impl; [|exact IH]. intros i y Hi. unfold at_index in *.
    rewrite nth_error_app1; trivial. apply nth_error_Some. congruence.
  - constructor; [|constructor]. unfold at_index.
    now rewrite nth_error_app2, Nat.sub_diag by lia.
Qed.

Lemma at_index_functional {A : Type} (a : list A) (idx : list nat)
    (l l' : list A) :
  Forall2 (at_index a) idx l -> Forall2 (at_index a) idx l' -> l = l'.
Proof.
  intros H. revert l'. induction H as [|i x idx l Hx _ IH]; intros l' H';
    inversion H'; subst; trivial.
  f_equal; [unfold at_index in *; congruence | now apply IH].
Qed.

Lemma indexing_permutation {A : Type} (a : list A) (idx : list nat)
    (l : list A) :
  Permutation idx (seq 0 (List.length a)) ->
  Forall2 (at_index a) idx l -> Permutation l a.
Proof.
  intros Hp Hl.
  destruct (Permutation_Forall2 Hp Hl) as (l' & Hl' & H').
  now rewrite (at_index_functional H' (at_index_seq a)) in Hl'.
Qed.

Lemma safe_indexing_length {A : Type} (a : list A) (idx : list nat)
    (l : list A) :
  safe_indexing a idx = Ok l -> List.length l = List.length idx.
Proof.
  revert l. induction idx as [|i idx IH]; intros l H; cbn in H.
  - now injection H as <-.
  - destruct (nth_error a i); [|discriminate].
    destruct (safe_indexing a idx) as [l'|]; [|discriminate].
    injection H as <-. cbn. f_equal. now apply IH.
Qed.

Lemma nth_error_combine {A B : Type} (a : list A) (b : list B) (i : nat) :
  nth_error (combine a b) i =
  match nth_error a i, nth_error b i with
  | Some x, Some y => Some (x, y)
  | _, _ => None
  end.
Proof.
  revert b i. induction a as [|x a IH]; intros [|y b] [|i]; cbn; trivial.
  now destruct (nth_error a i).
Qed.

Lemma safe_indexing_combine {A B : Type} (a : list A) (b : list B)
    (idx : list nat) :
  List.length a = List.length b ->
  safe_indexing (combine a b) idx =
  match safe_indexing a idx, safe_indexing b idx with
  | Ok la, Ok lb => Ok (combine la lb)
  | Error e, _ => Error e
  | _, Error e => Error e
  end.
Proof.
  intros Hlen. induction idx as [|i idx IH]; cbn; trivial.
  rewrite nth_error_combine.
  destruct (nth_error a i) as [x|] eqn:Ea, (nth_error b i) as [y|] eqn:Eb.
  - rewrite IH.
    destruct (safe_indexing a idx), (safe_indexing b idx); reflexivity.
  - exfalso. apply nth_error_None in Eb.
    assert (i < List.length a)%nat by (apply nth_error_Some; congruence). lia.
  - reflexivity.
  - reflexivity.
Qed.

Lemma combine_map_pair {A B C : Type} (f : A -> B) (g : A -> C) (l : list A) :
  combine (map f l) (map g l) = map (fun x => (f x, g x)) l.
Proof. induction l as [|x l IH]; cbn; [reflexivity | now rewrite IH]. Qed.

Lemma validate_shuffle_split_Ok (n : nat) (test_size : fraction)
    (n_train n_test : nat) :
  validate_shuffle_split n test_size = Ok (n_train, n_test) ->
  n_test = n_test_of test_size n /\ n_train = (n - n_test)%nat /\
  (0 < n_train)%nat.
Proof.
  unfold validate_shuffle_split. destruct test_size as [p q].
  destruct ((p =? 0)%nat || (q <=? p)%nat); [discriminate|].
  destruct (n - n_test_of (p, q) n =? 0)%nat eqn:E; [discriminate|].
  intros H. injection H as <- <-. apply Nat.eqb_neq in E.
  split; [reflexivity|]. split; [reflexivity|].
  change (0 < n - n_test_of (p, q) n)%nat. lia.
Qed.

Lemma permutation_length (seed n : nat) :
  List.length (permutation seed n) = n.
Proof.
  rewrite (Permutation_length (permutation_spec seed n)). apply length_seq.
Qed.

Lemma permutation_in_range (seed n i : nat) :
  In i (permutation seed n) -> (i < n)%nat.
Proof.
  intros H. apply (Permutation_in _ (permutation_spec seed n)) in H.
  apply in_seq in H. lia.
Qed.

Lemma shuffle_split_Ok (n : nat) (test_size : fraction) (seed : nat)
    (train test : list nat) :
  shuffle_split permutation n test_size seed = Ok (train, test) ->
  test ++ train = permutation seed n /\
  List.length test = n_test_of test_size n /\
  (0 < List.length train)%nat.
Proof.
  unfold shuffle_split.
  destruct (validate_shuffle_split n test_size) as [[n_train n_test]|] eqn:E;
    [|discriminate].
  apply validate_shuffle_split_Ok in E. destruct E as (Ht & Htr & Hpos).
  intros H. injection H as <- <-.
  pose proof (permutation_length seed n) as Hlen.
  rewrite (@firstn_all2 _ n_train (skipn n_test (permutation seed n)))
    by (rewrite length_skipn; lia).
  rewrite firstn_skipn, length_firstn, length_skipn. repeat split; lia.
Qed.

(** [train_test_split]: the two parts hold every row once. *)
Lemma train_test_split_Ok {A : Type} (a : list A) (test_size : fraction)
    (seed : nat) (a_train a_test : list A) :
  train_test_split permutation a test_size seed = Ok (a_train, a_test) ->
  Permutation (a_test ++ a_train) a /\
  List.length a_test = n_test_of test_size (List.length a) /\
  (0 < List.length a_train)%nat.
Proof.
  unfold train_test_split.
  destruct (shuffle_split permutation (List.length a) test_size seed)
    as [[train test]|] eqn:E; [|discriminate].
  apply shuffle_split_Ok in E. destruct E as (Happ & Hlen & Hpos).
  destruct (safe_indexing a train) as [l1|] eqn:E1; [|discriminate].
  destruct (safe_indexing a test) as [l2|] eqn:E2; [|discriminate].
  intros H. injection H as <- <-.
  rewrite (safe_indexing_length _ _ E1), (safe_indexing_length _ _ E2).
  repeat split; trivial.
  assert (Hr : forall i, In i (test ++ train) -> (i < List.length a)%nat).
  { intros i Hi. rewrite Happ in Hi. eapply permutation_in_range; eauto. }
  destruct (@safe_indexing_Forall2 _ a train) as (l1' & E1' & F1).
  { intros i Hi. apply Hr, in_or_app. now right. }
  destruct (@safe_indexing_Forall2 _ a test) as (l2' & E2' & F2).
  { intros i Hi. apply Hr, in_or_app. now left. }
  rewrite E1 in E1'. rewrite E2 in E2'. injection E1' as <-. injection E2' as <-.
  apply indexing_permutation with (idx := test ++ train).
  - rewrite Happ. apply permutation_spec.
  - now apply Forall2_app.
Qed.

Lemma In_firstn {A : Type} (n : nat) (l : list A) (x : A) :
  In x (firstn n l) -> In x l.
Proof.
  intros H. rewrite <- (firstn_skipn n l). apply in_or_app. now left.
Qed.

Lemma In_skipn {A : Type} (n : nat) (l : list A) (x : A) :
  In x (skipn n l) -> In x l.
Proof.
  intros H. rewrite <- (firstn_skipn n l). apply in_or_app. now right.
Qed.

Lemma train_test_split_Error {A : Type} (a : list A) (test_size : fraction)
    (seed : nat) (e : error) :
  train_test_split permutation a test_size seed = Error e ->
  e = ValueError /\
  validate_shuffle_split (List.length a) test_size = Error ValueError.
Proof.
  unfold train_test_split, shuffle_split.
  destruct (validate_shuffle_split (List.length a) test_size)
    as [[n_train n_test]|e'] eqn:E.
  - intros H. exfalso.
    set (perm := permutation seed (List.length a)) in *.
    destruct (@safe_indexing_Forall2 _ a (firstn n_train (skipn n_test perm)))
      as (l1 & E1 & _).
    { intros i Hi. apply In_firstn, In_skipn in Hi.
      eapply permutation_in_range; eauto. }
    destruct (@safe_indexing_Forall2 _ a (firstn n_test perm))
      as (l2 & E2 & _).
    { intros i Hi. apply In_firstn in Hi.
      eapply permutation_in_range; eauto. }
    rewrite E1, E2 in H. discriminate.
  - intros H. injection H as <-.
    unfold validate_shuffle_split in E. destruct test_size as [p q].
    destruct ((p =? 0)%nat || (q <=? p)%nat); [now injection E as <-|].
    destruct (_ =? 0)%nat; [now injection E as <- | discriminate].
Qed.

Lemma safe_indexing_Error {A : Type} (a : list A) (idx : list nat)
    (e : error) :
  safe_indexing a idx = Error e -> e = IndexError.
Proof.
  induction idx as [|i idx IH]; cbn; [discriminate|].
  destruct (nth_error a i); [|intros H; now injection H as <-].
  destruct (safe_indexing a idx); [discriminate|].
  intros H. injection H as <-. now apply IH.
Qed.

(** Splitting two arrays of one length is splitting their rows. *)
Lemma train_test_split_combine {A B : Type} (a : list A) (b : list B)
    (test_size : fraction) (seed : nat) :
  List.length a = List.length b ->
  train_test_split permutation (combine a b) test_size seed =
  match train_test_split2 permutation a b test_size seed with
  | Ok (a_train, a_test, b_train, b_test) =>
      Ok (combine a_train b_train, combine a_test b_test)
  | Error e => Error e
  end.
Proof.
  intros Hlen. unfold train_test_split, train_test_split2.
  rewrite length_combine, <- Hlen, Nat.min_id, Nat.eqb_refl. cbn [negb].
  destruct (shuffle_split permutation (List.length a) test_size seed)
    as [[train test]|e]; trivial.
  rewrite !safe_indexing_combine by trivial.
  destruct (safe_indexing a train) eqn:E1, (safe_indexing a test) eqn:E2,
           (safe_indexing b train) eqn:E3, (safe_indexing b test) eqn:E4;
    repeat match goal with
           | H : safe_indexing _ _ = Error _ |- _ =>
               apply safe_indexing_Error in H; subst
           end; reflexivity.
Qed.

Lemma train_test_split2_lengths {A B : Type} (a : list A) (b : list B)
    (test_size : fraction) (seed : nat) a_train a_test b_train b_test :
  train_test_split2 permutation a b test_size seed
    = Ok (a_train, a_test, b_train, b_test) ->
  List.length a_train = List.length b_train /\
  List.length a_test = List.length b_test.
Proof.
  unfold train_test_split2.
  destruct (negb _); [discriminate|].
  destruct (shuffle_split permutation (List.length a) test_size seed)
    as [[train test]|e]; [|discriminate].
  destruct (safe_indexing a train) as [l1|] eqn:E1,
           (safe_indexing a test) as [l2|] eqn:E2,
           (safe_indexing b train) as [l3|] eqn:E3,
           (safe_indexing b test) as [l4|] eqn:E4; try discriminate.
  intros H. injection H as <- <- <- <-.
  rewrite (safe_indexing_length _ _ E1), (safe_indexing_length _ _ E2),
          (safe_indexing_length _ _ E3), (safe_indexing_length _ _ E4).
  split; reflexivity.
Qed.

End SklearnFacts.

Section SplitDataFacts.
Variables Row Features Target Signature : Type.
Variable drop_quality : Row -> Features.
Variable quality : Row -> Target.
Variable infer_signature : list Features -> list Target -> Signature.
Variable permutation : nat -> nat -> list nat.
Hypothesis permutation_spec :
  forall seed n, Permutation (permutation seed n) (seq 0 n).

Local Abbreviation split := (split_data drop_quality quality infer_signature
                                        permutation).

(** The row of a data frame as the pair of its features and its target. *)
Local Abbreviation pair_of := (fun r : Row => (drop_quality r, quality r)).

Lemma split_data_Ok (data : list Row)
    (g : Globals (list Features) (list Target) Signature) :
  split data = Sklearn.Ok g ->
  Permutation (combine (test_X g) (test_y g)
               ++ combine (validation_X g) (validation_y g)
               ++ combine (train_X g) (train_y g))
              (map pair_of data) /\
  List.length (test_y g) = List.length (test_X g) /\
  List.length (validation_y g) = List.length (validation_X g) /\
  List.length (train_y g) = List.length (train_X g) /\
  List.length (test_X g) = Sklearn.n_test_of (1, 4) (List.length data) /\
  List.length (validation_X g)
    = Sklearn.n_test_of (1, 5) (List.length data - List.length (test_X g)) /\
  (0 < List.length (train_X g))%nat /\
  signature g = infer_signature (train_X g) (train_y g).
Proof.
  unfold split_data.
  destruct (Sklearn.train_test_split permutation data (1, 4) 42)
    as [[train test]|e] eqn:E1; [|discriminate].
  apply (train_test_split_Ok _ permutation_spec) in E1.
  destruct E1 as (P1 & L1 & _).
  destruct (Sklearn.train_test_split2 permutation (map drop_quality train)
              (map quality train) (1, 5) 42)
    as [[[[tX vX] ty] vy]|e] eqn:E2; [|discriminate].
  intros H. injection H as <-. cbn.
  pose proof (train_test_split2_lengths _ _ _ _ _ E2) as (La & Lb).
  assert (E3 := train_test_split_combine permutation
                  (map drop_quality train) (map quality train) (1, 5) 42).
  rewrite E2, combine_map_pair in E3.
  specialize (E3 ltac:(now rewrite !length_map)).
  apply (train_test_split_Ok _ permutation_spec) in E3.
  destruct E3 as (P2 & L2 & Hpos).
  rewrite length_combine, <- Lb, Nat.min_id, length_map in L2.
  rewrite length_combine, <- La, Nat.min_id in Hpos.
  assert (Hn : List.length data = (List.length test + List.length train)%nat).
  { rewrite <- (Permutation_length P1). apply length_app. }
  rewrite !length_map, combine_map_pair.
  split.
  - rewrite <- P1, map_app. apply Permutation_app_head. exact P2.
  - replace (List.length data - List.length test)%nat
      with (List.length train) by lia.
    auto 10.
Qed.

(** X10.  With a generator whose permutations are permutations, when the
    cells that split the data complete, the test, validation and training
    sets together hold every row of the data exactly once, each row with
    its own features and its own target; the test set has
    [ceil(n / 4)] rows, the validation set [ceil(m / 5)] of the [m] rows
    that remain, the training set at least one; and the signature is
    inferred from the final training set. *)
Theorem split_data_partition (data : list Row)
    (g : Globals (list Features) (list Target) Signature) :
  split data = Sklearn.Ok g ->
  Permutation (combine (test_X g) (test_y g)
               ++ combine (validation_X g) (validation_y g)
               ++ combine (train_X g) (train_y g))
              (map pair_of data) /\
  List.length (test_y g) = List.length (test_X g) /\
  List.length (validation_y g) = List.length (validation_X g) /\
  List.length (train_y g) = List.length (train_X g) /\
  List.length (test_X g) = ((List.length data + 3) / 4)%nat /\
  List.length (validation_X g)
    = ((List.length data - List.length (test_X g) + 4) / 5)%nat /\
  (0 < List.length (train_X g))%nat /\
  signature g = infer_signature (train_X g) (train_y g).
Proof.
  intros H. apply split_data_Ok in H.
  destruct H as (H1 & H2 & H3 & H4 & H5 & H6 & H7 & H8).
  unfold Sklearn.n_test_of in H5, H6. cbn [Nat.sub] in H5, H6.
  rewrite Nat.mul_1_r in H5, H6. auto 10.
Qed.

(** X11.  With a generator whose permutations are permutations, the cells
    that split the data complete exactly when the data has at least three
    rows; with fewer rows they raise [ValueError], a train set would be
    empty. *)
Theorem split_data_needs_three_rows (data : list Row) :
  match split data with
  | Sklearn.Ok _ => (3 <= List.length data)%nat
  | Sklearn.Error e => e = Sklearn.ValueError /\ (List.length data < 3)%nat
  end.
Proof.
  destruct (split data) as [g|e] eqn:E.
  - apply split_data_Ok in E.
    destruct E as (P & H2 & H3 & H4 & H5 & H6 & H7 & _).
    apply Permutation_length in P.
    rewrite !length_app, !length_combine, length_map, H2, H3, H4,
      !Nat.min_id in P.
    unfold Sklearn.n_test_of in H5, H6. div_lia.
  - unfold split_data in E.
    destruct (Sklearn.train_test_split permutation data (1, 4) 42)
      as [[train test]|e1] eqn:E1.
    + pose proof (train_test_split_Ok _ permutation_spec _ _ _ E1)
        as (P1 & L1 & _).
      apply Permutation_length in P1. rewrite length_app in P1.
      destruct (Sklearn.train_test_split2 permutation (map drop_quality train)
                  (map quality train) (1, 5) 42)
        as [[[[tX vX] ty] vy]|e2] eqn:E2; [discriminate|].
      injection E as <-.
      assert (E3 := train_test_split_combine permutation
                      (map drop_quality train) (map quality train) (1, 5) 42).
      rewrite E2 in E3.
      specialize (E3 ltac:(now rewrite !length_map)).
      apply (train_test_split_Error _ permutation_spec) in E3.
      destruct E3 as (-> & Hv). split; trivial.
      rewrite length_combine, !length_map, Nat.min_id in Hv.
      unfold Sklearn.validate_shuffle_split in Hv. cbn [Nat.eqb Nat.leb orb] in Hv.
      destruct (_ =? 0)%nat eqn:E0 in Hv; [|discriminate].
      apply Nat.eqb_eq in E0.
      unfold Sklearn.n_test_of in L1, E0. div_lia.
    + injection E as <-.
      apply (train_test_split_Error _ permutation_spec) in E1.
      destruct E1 as (-> & Hv). split; trivial.
      unfold Sklearn.validate_shuffle_split in Hv. cbn [Nat.eqb Nat.leb orb] in Hv.
      destruct (_ =? 0)%nat eqn:E0 in Hv; [|discriminate].
      apply Nat.eqb_eq in E0.
      unfold Sklearn.n_test_of in E0. div_lia.
Qed.

End SplitDataFacts.

(** *** The split of the stub data frame *)

Lemma SplitStub_permutation_spec (seed n : nat) :
  Permutation (SplitStub.permutation seed n) (seq 0 n).
Proof.
  apply Permutation_sym, Permutation_rev.
Qed.

Lemma split_data_partition_witness :
  SplitStub.split_data SplitStub.data8 = Sklearn.Ok SplitStub.globals8 /\
  Permutation
    (combine (test_X SplitStub.globals8) (test_y SplitStub.globals8)
     ++ combine (validation_X SplitStub.globals8)
                (validation_y SplitStub.globals8)
     ++ combine (train_X SplitStub.globals8) (train_y SplitStub.globals8))
    SplitStub.data8.
Proof.
  split; [reflexivity|].
  destruct (@split_data_partition SplitStub.Row nat nat unit (@fst nat nat)
              (@snd nat nat) (fun _ _ => tt) SplitStub.permutation
              SplitStub_permutation_spec SplitStub.data8 SplitStub.globals8
              eq_refl) as (H & _).
  exact H.
Defined.

Lemma split_data_needs_three_rows_witness :
  SplitStub.split_data [(10, 5); (11, 6)]%nat
  = Sklearn.Error Sklearn.ValueError.
Proof.
  assert (H := @split_data_needs_three_rows SplitStub.Row nat nat unit
                 (@fst nat nat) (@snd nat nat) (fun _ _ => tt)
                 SplitStub.permutation SplitStub_permutation_spec
                 [(10, 5); (11, 6)]%nat).
  change (split_data (@fst nat nat) (@snd nat nat) (fun _ _ => tt)
            SplitStub.permutation [(10, 5); (11, 6)]%nat)
    with (SplitStub.split_data [(10, 5); (11, 6)]%nat) in H.
  destruct (SplitStub.split_data [(10, 5); (11, 6)]%nat) as [g|e].
  - cbn in H. lia.
  - destruct H as [-> _]. reflexivity.
Defined.
